(** * Cat collector: the models and views of [main_app]

    A shallow embedding of [main_app/models.py], [main_app/urls.py] and
    [main_app/views.py].  Database tables are finite maps from primary key
    to row, a view is a function from a request and the server state to an
    outcome and a new server state, and the parts of the web framework the
    views rely on (field conversion, password hashing, settings) are
    gathered in the class [Django]. *)

From Stdlib Require Import Ascii String.
From stdpp Require Import base strings gmap list fin_maps pretty sorting.

Local Open Scope string_scope.

(** ** Values *)

(** [datetime.date]: compared by year, then month, then day. *)
Record date := mkdate { year : Z; month : Z; day : Z }.

Global Instance date_eq_dec : EqDecision date.
Proof. solve_decision. Defined.

Definition date_leb (a b : date) : bool :=
  if decide (year a = year b) then
    if decide (month a = month b) then bool_decide (day a ≤ day b)%Z
    else bool_decide (month a < month b)%Z
  else bool_decide (year a < year b)%Z.

(** [a < b] on dates *)
Definition date_lt (a b : date) : Prop := date_leb b a = false.

(** ** urls.py *)

(** The named patterns with their arguments, and the path
    [reverse] builds for each. *)
Inductive URL :=
| url_home
| url_home_two
| url_about
| url_cat_index
| url_cat_detail (cat_id : N)
| url_cat_create
| url_cat_update (pk : N)
| url_cat_delete (pk : N)
| url_add_feeding (cat_id : N)
| url_toy_create
| url_toy_detail (pk : N)
| url_toy_index
| url_signup.

Definition reverse (u : URL) : string :=
  match u with
  | url_home => "/"
  | url_home_two => "/home/"
  | url_about => "/about/"
  | url_cat_index => "/cats/"
  | url_cat_detail cat_id => "/cats/" +:+ pretty cat_id +:+ "/"
  | url_cat_create => "/cats/create/"
  | url_cat_update pk => "/cats/" +:+ pretty pk +:+ "/update/"
  | url_cat_delete pk => "/cats/" +:+ pretty pk +:+ "/delete/"
  | url_add_feeding cat_id => "/cats/" +:+ pretty cat_id +:+ "/add_feeding/"
  | url_toy_create => "/toys/create/"
  | url_toy_detail pk => "/toys/" +:+ pretty pk +:+ "/"
  | url_toy_index => "/toys/"
  | url_signup => "/accounts/signup/"
  end.

(** ** models.py *)

(** [MEALS]: a tuple of 2-tuples, code and label. *)
Definition MEALS : list (string * string) :=
  [("B", "Breakfast"); ("L", "Lunch"); ("D", "Dinner")].

Module User.
(** [django.contrib.auth.models.User]: the two columns the forms of the
    application read and write.  The other columns are not part of the
    model; [last_login], which [login] sets on the row of the user, is one
    of them. *)
Record t := mk { username : string; password : string }.
End User.

Module Cat.
(** The [id] column is the key of the table; [toys] is the separate
    many-to-many table [Cat_toys] of the database. *)
Record t := mk {
  name : string;
  breed : string;
  description : string;
  age : Z;
  user : N
}.

(** [reverse('cat-detail', kwargs={'cat_id': self.id})] *)
Definition get_absolute_url (id : N) : string :=
  reverse (url_cat_detail id).
End Cat.

Module Feeding.
Record t := mk {
  date : date;
  meal : string;
  cat : N
}.

(** [default=MEALS[0][0]] *)
Definition meal_default : string :=
  match MEALS with m :: _ => m.1 | [] => "" end.

(** [get_meal_display]: the label of the code, or the code itself when
    it is not one of the choices. *)
Definition get_meal_display (f : t) : string :=
  match list_find (λ m, m.1 = meal f) MEALS with
  | Some (_, m) => m.2
  | None => meal f
  end.
End Feeding.

Module Toy.
Record t := mk { name : string; color : string }.

Definition __str__ (x : t) : string := name x.

(** [reverse('toy-detail', kwargs={'pk': self.id})] *)
Definition get_absolute_url (id : N) : string :=
  reverse (url_toy_detail id).
End Toy.

(** ** The database

    One finite map per table, keyed by the [AutoField] primary key, with
    the sequence the next key is drawn from; the many-to-many table of
    [Cat.toys] is a set of (cat id, toy id) pairs. *)
Record DB := mkDB {
  User_objects : gmap N User.t;
  User_seq : N;
  Cat_objects : gmap N Cat.t;
  Cat_seq : N;
  Cat_toys : gset (N * N);
  Feeding_objects : gmap N Feeding.t;
  Feeding_seq : N;
  Toy_objects : gmap N Toy.t;
  Toy_seq : N
}.

Definition empty_db : DB := mkDB ∅ 1 ∅ 1 ∅ ∅ 1 ∅ 1.

Definition set_User_objects (m : gmap N User.t) (s : N) (d : DB) : DB :=
  mkDB m s (Cat_objects d) (Cat_seq d) (Cat_toys d)
       (Feeding_objects d) (Feeding_seq d) (Toy_objects d) (Toy_seq d).

Definition set_Cat_objects (m : gmap N Cat.t) (s : N) (d : DB) : DB :=
  mkDB (User_objects d) (User_seq d) m s (Cat_toys d)
       (Feeding_objects d) (Feeding_seq d) (Toy_objects d) (Toy_seq d).

Definition set_Feeding_objects (m : gmap N Feeding.t) (s : N) (d : DB) : DB :=
  mkDB (User_objects d) (User_seq d) (Cat_objects d) (Cat_seq d) (Cat_toys d)
       m s (Toy_objects d) (Toy_seq d).

Definition set_Toy_objects (m : gmap N Toy.t) (s : N) (d : DB) : DB :=
  mkDB (User_objects d) (User_seq d) (Cat_objects d) (Cat_seq d) (Cat_toys d)
       (Feeding_objects d) (Feeding_seq d) m s.

(** [Cat.objects.filter(user=u)] *)
Definition Cat_filter_user (u : N) (d : DB) : gmap N Cat.t :=
  filter (λ kc, Cat.user kc.2 = u) (Cat_objects d).

(** [Cat.objects.get(id=cat_id, user=u)]; [None] stands for the
    [Cat.DoesNotExist] it raises.  [id] is the primary key, so there is
    never more than one match. *)
Definition Cat_get (cat_id u : N) (d : DB) : option Cat.t :=
  match Cat_objects d !! cat_id with
  | Some c => if decide (Cat.user c = u) then Some c else None
  | None => None
  end.

(** [cat.delete()].  The collector follows the [on_delete=CASCADE] foreign
    key of [Feeding.cat] and clears the rows of the many-to-many table,
    then deletes the row of the cat. *)
Definition Cat_delete (pk : N) (d : DB) : DB :=
  mkDB (User_objects d) (User_seq d)
       (delete pk (Cat_objects d)) (Cat_seq d)
       (filter (λ ct, ct.1 ≠ pk) (Cat_toys d))
       (filter (λ kf, Feeding.cat kf.2 ≠ pk) (Feeding_objects d)) (Feeding_seq d)
       (Toy_objects d) (Toy_seq d).

(** ** The framework

    What the views take from Django and from the project's settings,
    neither of which is part of [main_app]. *)
Class Django := {
  (** [str.strip()] and [len()] on [str] *)
  strip : string → string;
  len : string → nat;
  (** [forms.IntegerField.to_python] followed by the range validators of
      the database backend, on a non-empty input *)
  IntegerField_to_python : string → option Z;
  (** [forms.DateField.to_python] on a non-empty input *)
  DateField_to_python : string → option date;
  (** [unicodedata.normalize('NFKC', ·)], which [UsernameField] applies *)
  normalize : string → string;
  (** the validators of [User.username] *)
  username_validator : string → bool;
  (** the [__iexact] lookup of the database: equality up to case *)
  iexact : string → string → bool;
  (** [password_validation.validate_password password user], the user
      known by the username the form cleaned, if it did *)
  validate_password : string → option string → bool;
  make_password : string → string;
  check_password : string → string → bool;
  (** [settings.LOGIN_URL], resolved: a path on the host of the
      application, without a query string, such as the default
      [/accounts/login/] *)
  LOGIN_URL : string;
  (** [LoginView.get_success_url]: the [next] of the request when it is
      safe, [settings.LOGIN_REDIRECT_URL] otherwise *)
  LoginView_success_url : gmap string string → string
}.

(** ** Requests and responses *)

Abbreviation QueryDict := (gmap string string).

Inductive Method := GET | POST.

Global Instance Method_eq_dec : EqDecision Method.
Proof. solve_decision. Defined.

Module HttpRequest.
(** Requests of the two methods a browser form sends.  [full_path] is
    [request.get_full_path()]: the path with its query string, if any. *)
Record t := mk { full_path : string; method : Method; POST : QueryDict }.
End HttpRequest.

(** What a template context can hold.  A form appears with what a
    template can read from it: whether it is bound, the submitted data and
    the errors, each a field name with a [ValidationError] code. *)
Inductive value :=
| VStr (s : string)
| VCat (id : N) (c : Cat.t)
| VCats (qs : gmap N Cat.t)
| VToy (id : N) (x : Toy.t)
| VToys (qs : gmap N Toy.t)
| VForm (bound : bool) (initial data : QueryDict) (errors : list (string * string)).

Inductive HttpResponse :=
| render (template_name : string) (context : list (string * value))
| redirect (to : string).

Inductive Exception :=
| DoesNotExist   (** [Model.DoesNotExist], from [objects.get] *)
| Http404        (** raised by [get_object] of the generic views *)
| ValueError.    (** [form.save()] on a form with errors *)

Inductive Outcome :=
| Response (r : HttpResponse)
| Raise (e : Exception).

(** The status the handler of the framework gives to an outcome: it turns
    [Http404] into a 404 page and any other exception that leaves the view
    into a server error. *)
Definition status_code (o : Outcome) : Z :=
  match o with
  | Response (render _ _) => 200
  | Response (redirect _) => 302
  | Raise Http404 => 404
  | Raise _ => 500
  end.

(** The state a view runs in: the database and the user of the session
    of the request ([None] for [AnonymousUser]). *)
Record Env := mkEnv { db : DB; session : option N }.

Definition View := HttpRequest.t → Env → Outcome * Env.

(** ** Forms *)

Inductive Cleaned (A : Type) :=
| Valid (a : A)
| ValidationError (code : string).
Arguments Valid {A} a.
Arguments ValidationError {A} code.

Definition field_error {A} (name : string) (c : Cleaned A) : list (string * string) :=
  match c with
  | Valid _ => []
  | ValidationError code => [(name, code)]
  end.

Record Form (A : Type) := mkForm {
  is_bound : bool;
  initial : QueryDict;
  data : QueryDict;
  errors : list (string * string);
  cleaned_data : option A
}.
Arguments mkForm {A}.
Arguments is_bound {A}.
Arguments initial {A}.
Arguments data {A}.
Arguments errors {A}.
Arguments cleaned_data {A}.

Definition is_valid {A} (f : Form A) : bool :=
  is_bound f && bool_decide (errors f = []).

(** [SomeForm()] and [SomeForm(instance=obj)]: no data, no errors. *)
Definition unbound {A} (init : QueryDict) : Form A := mkForm false init ∅ [] None.

(** [SomeForm(request.POST)]: [cleaned_data] is complete only when
    cleaning found no error. *)
Definition bound {A} (init post : QueryDict) (errs : list (string * string))
    (cleaned : option A) : Form A :=
  mkForm true init post errs (match errs with [] => cleaned | _ => None end).

Definition as_value {A} (f : Form A) : value :=
  VForm (is_bound f) (initial f) (data f) (errors f).


(** ** Querysets *)

(** [order_by]: insertion of each row into the rows already ordered. *)
Fixpoint insert_by {A} (before : A → A → bool) (x : A) (l : list A) : list A :=
  match l with
  | [] => [x]
  | y :: l' => if before x y then x :: l else y :: insert_by before x l'
  end.

Definition order_by {A} (before : A → A → bool) (l : list A) : list A :=
  foldr (insert_by before) [] l.

(** [Feeding.Meta.ordering = ['-date']]: a row comes before another when
    its date is not earlier. *)
Definition Feeding_ordering (a b : N * Feeding.t) : bool :=
  date_leb (Feeding.date b.2) (Feeding.date a.2).

(** [Feeding.objects.filter(cat=pk)], before ordering: the rows of the
    Feeding table that refer to the cat [pk]. *)
Definition feedings_of (pk : N) (d : DB) : gmap N Feeding.t :=
  filter (λ kf, Feeding.cat kf.2 = pk) (Feeding_objects d).

(** [Feeding.objects.all()] *)
Definition Feeding_all (d : DB) : list (N * Feeding.t) :=
  order_by Feeding_ordering (map_to_list (Feeding_objects d)).

(** [cat.feedings.all()], the related manager of [Feeding.cat] *)
Definition Cat_feedings (cat_id : N) (d : DB) : list (N * Feeding.t) :=
  order_by Feeding_ordering (map_to_list (feedings_of cat_id d)).

(** [User.objects.get(username=...)]; usernames are unique. *)
Definition User_get_by_username (username : string) (d : DB) : option (N * User.t) :=
  head (map_to_list (filter (λ ku, User.username ku.2 = username) (User_objects d))).

(** ** urllib.parse *)

(** The characters [quote] never escapes: letters, digits and [_.-~]. *)
Definition always_safe (c : ascii) : bool :=
  let n := N_of_ascii c in
  bool_decide ((65 ≤ n ≤ 90)%N ∨ (97 ≤ n ≤ 122)%N ∨ (48 ≤ n ≤ 57)%N
               ∨ n = 95%N ∨ n = 46%N ∨ n = 45%N ∨ n = 126%N).

Definition hex_digit (n : N) : ascii :=
  ascii_of_N (if decide (n < 10)%N then 48 + n else 55 + n).

Definition in_string (c : ascii) (s : string) : bool :=
  bool_decide (c ∈ list_ascii_of_string s).

(** [quote(s, safe)]: every byte that is neither always safe nor in [safe]
    becomes [%XX], in upper-case hexadecimal. *)
Fixpoint quote (safe : string) (s : string) : string :=
  match s with
  | EmptyString => EmptyString
  | String c s' =>
      if always_safe c || in_string c safe then String c (quote safe s')
      else
        String "%"%char
          (String (hex_digit (N_of_ascii c / 16)) (String (hex_digit (N_of_ascii c mod 16))
             (quote safe s')))
  end.

Section views.
Context {dj : Django}.

(** ** Form fields *)

(** [ProhibitNullCharactersValidator], which every [CharField] runs. *)
Definition null_characters (value : string) : Cleaned string :=
  if in_string zero value then ValidationError "null_characters_not_allowed"
  else Valid value.

(** [forms.CharField(max_length=n)]: the value is stripped, must not be
    empty, must not be longer than [n] and must not hold a null
    character. *)
Definition CharField_clean (max_length : option nat) (raw : option string) : Cleaned string :=
  let value := strip (default "" raw) in
  if decide (value = "") then ValidationError "required"
  else match max_length with
       | Some n =>
           if decide (len value ≤ n)%nat then null_characters value
           else ValidationError "max_length"
       | None => null_characters value
       end.

(** [forms.CharField(strip=False)], the password fields *)
Definition PasswordField_clean (raw : option string) : Cleaned string :=
  let value := default "" raw in
  if decide (value = "") then ValidationError "required" else null_characters value.

Definition IntegerField_clean (raw : option string) : Cleaned Z :=
  let value := default "" raw in
  if decide (value = "") then ValidationError "required"
  else match IntegerField_to_python value with
       | Some z => Valid z
       | None => ValidationError "invalid"
       end.

Definition DateField_clean (raw : option string) : Cleaned date :=
  let value := default "" raw in
  if decide (value = "") then ValidationError "required"
  else match DateField_to_python value with
       | Some d => Valid d
       | None => ValidationError "invalid"
       end.

(** The form field of a model field with [choices]: the value must be the
    code of one of them. *)
Definition ChoiceField_clean (choices : list (string * string)) (raw : option string)
    : Cleaned string :=
  let value := default "" raw in
  if decide (value = "") then ValidationError "required"
  else if decide (value ∈ choices.*1) then Valid value
  else ValidationError "invalid_choice".

(** ** forms.py *)

(** Modelled from the spec: [forms.py] is not among the sources.  The
    spec has the feeding form validate "the submitted date and meal code";
    [FeedingForm] is the model form of [Feeding] on the fields [date] and
    [meal], and the view assigns the cat.  [data] is [None] for
    [FeedingForm()]. *)
Definition FeedingForm (data : option QueryDict) : Form (date * string) :=
  let init := {["meal" := Feeding.meal_default]} in
  match data with
  | None => unbound init
  | Some post =>
      let date := DateField_clean (post !! "date") in
      let meal := ChoiceField_clean MEALS (post !! "meal") in
      bound init post
        (field_error "date" date ++ field_error "meal" meal)
        (match date, meal with
         | Valid d, Valid m => Some (d, m)
         | _, _ => None
         end)
  end.

(** ** The model forms of the generic views *)

(** [CatCreate.fields = ['name', 'breed', 'description', 'age']] *)
Definition CatCreate_form (data : option QueryDict) : Form (string * string * string * Z) :=
  match data with
  | None => unbound ∅
  | Some post =>
      let name := CharField_clean (Some 100%nat) (post !! "name") in
      let breed := CharField_clean (Some 100%nat) (post !! "breed") in
      let description := CharField_clean (Some 250%nat) (post !! "description") in
      let age := IntegerField_clean (post !! "age") in
      bound ∅ post
        (field_error "name" name ++ field_error "breed" breed
         ++ field_error "description" description ++ field_error "age" age)
        (match name, breed, description, age with
         | Valid n, Valid b, Valid d, Valid a => Some (n, b, d, a)
         | _, _, _, _ => None
         end)
  end.

(** [CatUpdate.fields = ['breed', 'description', 'age']], on an instance *)
Definition CatUpdate_form (instance : Cat.t) (data : option QueryDict)
    : Form (string * string * Z) :=
  let init : QueryDict :=
    {[ "breed" := Cat.breed instance;
       "description" := Cat.description instance;
       "age" := pretty (Cat.age instance) ]} in
  match data with
  | None => unbound init
  | Some post =>
      let breed := CharField_clean (Some 100%nat) (post !! "breed") in
      let description := CharField_clean (Some 250%nat) (post !! "description") in
      let age := IntegerField_clean (post !! "age") in
      bound init post
        (field_error "breed" breed ++ field_error "description" description
         ++ field_error "age" age)
        (match breed, description, age with
         | Valid b, Valid d, Valid a => Some (b, d, a)
         | _, _, _ => None
         end)
  end.

(** [ToyCreate.fields = '__all__'] *)
Definition ToyCreate_form (data : option QueryDict) : Form (string * string) :=
  match data with
  | None => unbound ∅
  | Some post =>
      let name := CharField_clean (Some 50%nat) (post !! "name") in
      let color := CharField_clean (Some 20%nat) (post !! "color") in
      bound ∅ post
        (field_error "name" name ++ field_error "color" color)
        (match name, color with
         | Valid n, Valid c => Some (n, c)
         | _, _ => None
         end)
  end.

(** ** django.contrib.auth.forms *)

(** [UsernameField]: a [CharField] of at most 150 characters whose value,
    once stripped, is normalized unless it is already too long. *)
Definition UsernameField_clean (raw : option string) : Cleaned string :=
  let stripped := strip (default "" raw) in
  let value :=
    if decide (len stripped ≤ 150)%nat then normalize stripped else stripped in
  if decide (value = "") then ValidationError "required"
  else if decide (len value ≤ 150)%nat then null_characters value
  else ValidationError "max_length".

(** The two uniqueness tests of the form: [clean_username] looks for a
    user whose name is the same up to case, [validate_unique] for one
    whose name is the same. *)
Definition username_taken (username : string) (d : DB) : bool :=
  existsb (λ ku : N * User.t,
             iexact (User.username ku.2) username
             || bool_decide (User.username ku.2 = username))
          (map_to_list (User_objects d)).

(** [UserCreationForm]: the username must be valid and free, both
    passwords are required and must be equal, and the password must pass
    the password validators.  The cleaned data are the username and the
    password. *)
Definition UserCreationForm (d : DB) (data : option QueryDict) : Form (string * string) :=
  match data with
  | None => unbound ∅
  | Some post =>
      let username :=
        match UsernameField_clean (post !! "username") with
        | Valid u =>
            if negb (username_validator u) then ValidationError "invalid"
            else if username_taken u d then ValidationError "unique"
            else Valid u
        | ValidationError code => ValidationError code
        end in
      let password1 := PasswordField_clean (post !! "password1") in
      let password2 :=
        match PasswordField_clean (post !! "password2") with
        | Valid p2 =>
            let mismatch :=
              match password1 with
              | Valid p1 => bool_decide (p1 ≠ p2)
              | ValidationError _ => false
              end in
            if mismatch then ValidationError "password_mismatch"
            else if validate_password p2
                      (match username with Valid u => Some u | ValidationError _ => None end)
            then Valid p2
            else ValidationError "password_invalid"
        | ValidationError code => ValidationError code
        end in
      bound ∅ post
        (field_error "username" username ++ field_error "password1" password1
         ++ field_error "password2" password2)
        (match username, password1, password2 with
         | Valid u, Valid p, Valid _ => Some (u, p)
         | _, _, _ => None
         end)
  end.

(** [authenticate(username=..., password=...)] of the model backend *)
Definition authenticate (username password : string) (d : DB) : option N :=
  match User_get_by_username username d with
  | Some (id, row) => if check_password password (User.password row) then Some id else None
  | None => None
  end.

(** [AuthenticationForm]: once both fields are there, [clean] calls
    [authenticate]; the cleaned data is the user it found. *)
Definition AuthenticationForm (d : DB) (data : option QueryDict) : Form N :=
  match data with
  | None => unbound ∅
  | Some post =>
      let username := UsernameField_clean (post !! "username") in
      let password := PasswordField_clean (post !! "password") in
      let user :=
        match username, password with
        | Valid u, Valid p => authenticate u p d
        | _, _ => None
        end in
      bound ∅ post
        (field_error "username" username ++ field_error "password" password
         ++ match username, password, user with
            | Valid _, Valid _, None => [("__all__", "invalid_login")]
            | _, _, _ => []
            end)
        user
  end.

(** ** views.py *)

(** [redirect_to_login], what [login_required] and [LoginRequiredMixin]
    answer to a request without a user: the login URL with the full path
    of the request as its [next] field, encoded by
    [QueryDict.urlencode(safe='/')]. *)
Definition redirect_to_login (request : HttpRequest.t) : HttpResponse :=
  redirect (LOGIN_URL +:+ "?next=" +:+ quote "/" (HttpRequest.full_path request)).

(** [@login_required]: the view runs with [request.user] when the session
    has one. *)
Definition login_required (view : N → View) : View :=
  λ request env,
    match session env with
    | Some user => view user request env
    | None => (Response (redirect_to_login request), env)
    end.

(** [LoginRequiredMixin.dispatch] makes the same test before the generic
    view dispatches on the method. *)
Definition LoginRequiredMixin (view : N → View) : View := login_required view.

(** [login(request, user)]: the session gets the user.  (It also sets
    [last_login] on the row of the user, a column outside the model.) *)
Definition login (user : N) (env : Env) : Env := mkEnv (db env) (Some user).

(** [class Home(LoginView)] *)
Definition Home : View :=
  λ request env,
    match HttpRequest.method request with
    | GET =>
        (Response (render "home.html"
           [("form", as_value (AuthenticationForm (db env) None))]), env)
    | POST =>
        let form := AuthenticationForm (db env) (Some (HttpRequest.POST request)) in
        if is_valid form then
          match cleaned_data form with
          | Some user =>
              (Response (redirect (LoginView_success_url (HttpRequest.POST request))),
               login user env)
          | None => (Raise ValueError, env)
          end
        else (Response (render "home.html" [("form", as_value form)]), env)
    end.

Definition homeTwo : View :=
  λ request env, (Response (render "home.html" []), env).

Definition about : View :=
  λ request env, (Response (render "about.html" []), env).

Definition cat_index : View :=
  login_required (λ user request env,
    let cats := Cat_filter_user user (db env) in
    (Response (render "cats/index.html" [("cats", VCats cats)]), env)).

(** [CatCreate.form_valid]: the owner is set on the instance, then
    [CreateView.form_valid] saves it and redirects to its page. *)
Definition CatCreate_form_valid (user : N) (form : Form (string * string * string * Z))
    (env : Env) : Outcome * Env :=
  match cleaned_data form with
  | Some (name, breed, description, age) =>
      let instance := Cat.mk name breed description age user in
      let id := Cat_seq (db env) in
      let d := set_Cat_objects (<[id := instance]> (Cat_objects (db env))) (N.succ id) (db env) in
      (Response (redirect (Cat.get_absolute_url id)), mkEnv d (session env))
  | None => (Raise ValueError, env)
  end.

Definition CatCreate : View :=
  LoginRequiredMixin (λ user request env,
    match HttpRequest.method request with
    | GET =>
        (Response (render "main_app/cat_form.html"
           [("form", as_value (CatCreate_form None))]), env)
    | POST =>
        let form := CatCreate_form (Some (HttpRequest.POST request)) in
        if is_valid form then CatCreate_form_valid user form env
        else (Response (render "main_app/cat_form.html" [("form", as_value form)]), env)
    end).

(** [construct_instance], which validation runs on the instance of the
    form: every field that cleaned well is set on the object, whether or
    not the form as a whole is valid. *)
Definition CatUpdate_instance (object : Cat.t) (post : QueryDict) : Cat.t :=
  Cat.mk (Cat.name object)
    (match CharField_clean (Some 100%nat) (post !! "breed") with
     | Valid b => b
     | ValidationError _ => Cat.breed object
     end)
    (match CharField_clean (Some 250%nat) (post !! "description") with
     | Valid d => d
     | ValidationError _ => Cat.description object
     end)
    (match IntegerField_clean (post !! "age") with
     | Valid a => a
     | ValidationError _ => Cat.age object
     end)
    (Cat.user object).

(** [UpdateView]: [get_object] looks the primary key up in
    [Cat.objects.all()]; a valid form is saved onto that row, an invalid
    one is shown again with the object as validation left it. *)
Definition CatUpdate (pk : N) : View :=
  LoginRequiredMixin (λ user request env,
    match Cat_objects (db env) !! pk with
    | None => (Raise Http404, env)
    | Some object =>
        match HttpRequest.method request with
        | GET =>
            (Response (render "main_app/cat_form.html"
               [("object", VCat pk object); ("cat", VCat pk object);
                ("form", as_value (CatUpdate_form object None))]), env)
        | POST =>
            let form := CatUpdate_form object (Some (HttpRequest.POST request)) in
            if is_valid form then
              match cleaned_data form with
              | Some (breed, description, age) =>
                  let instance :=
                    Cat.mk (Cat.name object) breed description age (Cat.user object) in
                  let d := set_Cat_objects (<[pk := instance]> (Cat_objects (db env)))
                             (Cat_seq (db env)) (db env) in
                  (Response (redirect (Cat.get_absolute_url pk)), mkEnv d (session env))
              | None => (Raise ValueError, env)
              end
            else
              let shown := CatUpdate_instance object (HttpRequest.POST request) in
              (Response (render "main_app/cat_form.html"
                 [("object", VCat pk shown); ("cat", VCat pk shown);
                  ("form", as_value form)]), env)
        end
    end).

(** [DeleteView] with [success_url = '/cats/'] *)
Definition CatDelete (pk : N) : View :=
  LoginRequiredMixin (λ user request env,
    match Cat_objects (db env) !! pk with
    | None => (Raise Http404, env)
    | Some object =>
        match HttpRequest.method request with
        | GET =>
            (Response (render "main_app/cat_confirm_delete.html"
               [("object", VCat pk object); ("cat", VCat pk object)]), env)
        | POST =>
            (Response (redirect "/cats/"), mkEnv (Cat_delete pk (db env)) (session env))
        end
    end).

Definition cat_detail (cat_id : N) : View :=
  login_required (λ user request env,
    match Cat_get cat_id user (db env) with
    | None => (Raise DoesNotExist, env)
    | Some cat =>
        let feeding_form := FeedingForm None in
        (Response (render "cats/detail.html"
           [("cat", VCat cat_id cat); ("feeding_form", as_value feeding_form)]), env)
    end).

(** [new_feeding.save()]: the row gets the next key of the sequence. *)
Definition Feeding_save (new_feeding : Feeding.t) (d : DB) : DB :=
  set_Feeding_objects (<[Feeding_seq d := new_feeding]> (Feeding_objects d))
    (N.succ (Feeding_seq d)) d.

Definition add_feeding (cat_id : N) : View :=
  login_required (λ user request env,
    match Cat_get cat_id user (db env) with
    | None => (Raise DoesNotExist, env)
    | Some cat =>
        let form := FeedingForm (Some (HttpRequest.POST request)) in
        if is_valid form then
          match cleaned_data form with
          | Some (date, meal) =>
              let new_feeding := Feeding.mk date meal cat_id in
              (Response (redirect (reverse (url_cat_detail cat_id))),
               mkEnv (Feeding_save new_feeding (db env)) (session env))
          | None => (Raise ValueError, env)
          end
        else (Response (redirect (reverse (url_cat_detail cat_id))), env)
    end).

Definition toy_detail (pk : N) : View :=
  login_required (λ user request env,
    match Toy_objects (db env) !! pk with
    | None => (Raise DoesNotExist, env)
    | Some toy =>
        (Response (render "main_app/toy_detail.html" [("toy", VToy pk toy)]), env)
    end).

(** [user = form.save()]: the password is stored hashed. *)
Definition User_save (username password : string) (d : DB) : N * DB :=
  let id := User_seq d in
  (id, set_User_objects (<[id := User.mk username (make_password password)]> (User_objects d))
         (N.succ id) d).

Definition signup : View :=
  λ request env,
    let render_form (error_message : string) :=
      let form := UserCreationForm (db env) None in
      let context := [("form", as_value form); ("error_message", VStr error_message)] in
      (Response (render "signup.html" context), env) in
    match HttpRequest.method request with
    | POST =>
        let form := UserCreationForm (db env) (Some (HttpRequest.POST request)) in
        if is_valid form then
          match cleaned_data form with
          | Some (username, password) =>
              let '(user, d) := User_save username password (db env) in
              (Response (redirect (reverse url_cat_index)), login user (mkEnv d (session env)))
          | None => (Raise ValueError, env)
          end
        else render_form "Invalid sign up - try again"
    | GET => render_form ""
    end.

Definition ToyCreate : View :=
  LoginRequiredMixin (λ user request env,
    match HttpRequest.method request with
    | GET =>
        (Response (render "main_app/toy_form.html"
           [("form", as_value (ToyCreate_form None))]), env)
    | POST =>
        let form := ToyCreate_form (Some (HttpRequest.POST request)) in
        if is_valid form then
          match cleaned_data form with
          | Some (name, color) =>
              let id := Toy_seq (db env) in
              let d := set_Toy_objects (<[id := Toy.mk name color]> (Toy_objects (db env)))
                         (N.succ id) (db env) in
              (Response (redirect (Toy.get_absolute_url id)), mkEnv d (session env))
          | None => (Raise ValueError, env)
          end
        else (Response (render "main_app/toy_form.html" [("form", as_value form)]), env)
    end).

Definition ToyList : View :=
  LoginRequiredMixin (λ user request env,
    (Response (render "main_app/toy_list.html"
       [("object_list", VToys (Toy_objects (db env)));
        ("toy_list", VToys (Toy_objects (db env)))]), env)).

(** [ToyUpdate.fields = ['name', 'color']], on an instance *)
Definition ToyUpdate_form (instance : Toy.t) (data : option QueryDict)
    : Form (string * string) :=
  let init : QueryDict :=
    {[ "name" := Toy.name instance; "color" := Toy.color instance ]} in
  match data with
  | None => unbound init
  | Some post =>
      let name := CharField_clean (Some 50%nat) (post !! "name") in
      let color := CharField_clean (Some 20%nat) (post !! "color") in
      bound init post
        (field_error "name" name ++ field_error "color" color)
        (match name, color with
         | Valid n, Valid c => Some (n, c)
         | _, _ => None
         end)
  end.

(** [construct_instance] on a toy *)
Definition ToyUpdate_instance (object : Toy.t) (post : QueryDict) : Toy.t :=
  Toy.mk
    (match CharField_clean (Some 50%nat) (post !! "name") with
     | Valid n => n
     | ValidationError _ => Toy.name object
     end)
    (match CharField_clean (Some 20%nat) (post !! "color") with
     | Valid c => c
     | ValidationError _ => Toy.color object
     end).

(** [class ToyUpdate(LoginRequiredMixin, UpdateView)]: the success URL is
    [Toy.get_absolute_url] of the saved toy. *)
Definition ToyUpdate (pk : N) : View :=
  LoginRequiredMixin (λ user request env,
    match Toy_objects (db env) !! pk with
    | None => (Raise Http404, env)
    | Some object =>
        match HttpRequest.method request with
        | GET =>
            (Response (render "main_app/toy_form.html"
               [("object", VToy pk object); ("toy", VToy pk object);
                ("form", as_value (ToyUpdate_form object None))]), env)
        | POST =>
            let form := ToyUpdate_form object (Some (HttpRequest.POST request)) in
            if is_valid form then
              match cleaned_data form with
              | Some (name, color) =>
                  let d := set_Toy_objects (<[pk := Toy.mk name color]> (Toy_objects (db env)))
                             (Toy_seq (db env)) (db env) in
                  (Response (redirect (Toy.get_absolute_url pk)), mkEnv d (session env))
              | None => (Raise ValueError, env)
              end
            else
              let shown := ToyUpdate_instance object (HttpRequest.POST request) in
              (Response (render "main_app/toy_form.html"
                 [("object", VToy pk shown); ("toy", VToy pk shown);
                  ("form", as_value form)]), env)
        end
    end).

(** [toy.delete()]: the rows of the many-to-many table of [Cat.toys] that
    name the toy go with it. *)
Definition Toy_delete (pk : N) (d : DB) : DB :=
  mkDB (User_objects d) (User_seq d)
       (Cat_objects d) (Cat_seq d)
       (filter (λ ct, ct.2 ≠ pk) (Cat_toys d))
       (Feeding_objects d) (Feeding_seq d)
       (delete pk (Toy_objects d)) (Toy_seq d).

(** [class ToyDelete(LoginRequiredMixin, DeleteView)] with
    [success_url = '/toys/'] *)
Definition ToyDelete (pk : N) : View :=
  LoginRequiredMixin (λ user request env,
    match Toy_objects (db env) !! pk with
    | None => (Raise Http404, env)
    | Some object =>
        match HttpRequest.method request with
        | GET =>
            (Response (render "main_app/toy_confirm_delete.html"
               [("object", VToy pk object); ("toy", VToy pk object)]), env)
        | POST =>
            (Response (redirect "/toys/"), mkEnv (Toy_delete pk (db env)) (session env))
        end
    end).

(** ** urls.py: [urlpatterns]

    [ToyDetail], [ToyUpdate] and [ToyDelete] of views.py have no pattern
    and are never called. *)

Definition urlpatterns (u : URL) : View :=
  match u with
  | url_home => Home
  | url_home_two => homeTwo
  | url_about => about
  | url_cat_index => cat_index
  | url_cat_detail cat_id => cat_detail cat_id
  | url_cat_create => CatCreate
  | url_cat_update pk => CatUpdate pk
  | url_cat_delete pk => CatDelete pk
  | url_add_feeding cat_id => add_feeding cat_id
  | url_toy_create => ToyCreate
  | url_toy_detail pk => toy_detail pk
  | url_toy_index => ToyList
  | url_signup => signup
  end.

(** [AuthenticationMiddleware]: the user of the session, if the session
    has one and it is still in the table. *)
Definition get_user (who : option N) (d : DB) : option N :=
  match who with
  | Some u => if decide (is_Some (User_objects d !! u)) then Some u else None
  | None => None
  end.

(** One request served: a client, with the user its session names, asks
    for a URL; the database the view leaves is the one the next request
    finds. *)
Definition serve (d : DB) (r : option N * URL * HttpRequest.t) : DB :=
  let '(who, u, request) := r in
  db (urlpatterns u request (mkEnv d (get_user who d))).2.

Definition serve_all (d : DB) (rs : list (option N * URL * HttpRequest.t)) : DB :=
  foldl serve d rs.

End views.

(** ** Who may ask for what *)

(** The patterns whose view is wrapped in [login_required] or mixes in
    [LoginRequiredMixin]: all but the two home pages, the about page and
    the signup page. *)
Definition login_protected (u : URL) : bool :=
  match u with
  | url_home | url_home_two | url_about | url_signup => false
  | _ => true
  end.

(** Every cat belongs to a user of the User table. *)
Definition owners_known (d : DB) : Prop :=
  map_Forall (λ _ c, is_Some (User_objects d !! Cat.user c)) (Cat_objects d).

(** The row of a cat through the requests: the key was drawn from the
    sequence, and as long as a row has the key it has the owner and the
    name of [c]. *)
Definition cat_kept (k : N) (c : Cat.t) (d : DB) : Prop :=
  (k < Cat_seq d)%N
  ∧ match Cat_objects d !! k with
    | Some c' => Cat.user c' = Cat.user c ∧ Cat.name c' = Cat.name c
    | None => True
    end.

(** Every stored meal is one of the codes of [MEALS]. *)
Definition meals_valid (d : DB) : Prop :=
  map_Forall (λ _ f, Feeding.meal f ∈ MEALS.*1) (Feeding_objects d).

(** ** Integrity of the Feeding table *)

(** Every row of the Feeding table refers to a row of the Cat table. *)
Definition no_orphans (d : DB) : Prop :=
  map_Forall (λ _ f, is_Some (Cat_objects d !! Feeding.cat f)) (Feeding_objects d).

Global Instance no_orphans_dec (d : DB) : Decision (no_orphans d).
Proof. unfold no_orphans. apply _. Defined.

(** Every key of a table was drawn from its sequence, so the next key of
    the sequence is not in the table. *)
Definition keys_below {A} (m : gmap N A) (s : N) : Prop :=
  ∀ k, is_Some (m !! k) → (k < s)%N.

Definition fresh_keys (d : DB) : Prop :=
  keys_below (User_objects d) (User_seq d)
  ∧ keys_below (Cat_objects d) (Cat_seq d)
  ∧ keys_below (Feeding_objects d) (Feeding_seq d)
  ∧ keys_below (Toy_objects d) (Toy_seq d).

(** A listing has the most recent date first when a row with a later date
    than another stands before it. *)
Definition latest_first (l : list (N * Feeding.t)) : Prop :=
  ∀ (i j : nat) a b,
    l !! i = Some a → l !! j = Some b →
    date_lt (Feeding.date b.2) (Feeding.date a.2) → (i < j)%nat.

(** [context[key]] *)
Fixpoint context_get (key : string) (context : list (string * value)) : option value :=
  match context with
  | [] => None
  | (k, v) :: rest => if decide (k = key) then Some v else context_get key rest
  end.

(** ** A framework to run the views on examples

    Plain ASCII input: white space is stripped, integers are signed
    decimal numbers of 64 bits, dates are days of the calendar written
    [YYYY-MM-DD], names are compared up to the case of the letters,
    passwords have eight characters or more and are stored as they
    are. *)
Module Example.

Definition digit (c : ascii) : option Z :=
  let n := (Z.of_N (N_of_ascii c) - 48)%Z in
  if bool_decide (0 ≤ n ≤ 9)%Z then Some n else None.

Fixpoint digits (acc : Z) (s : string) : option Z :=
  match s with
  | EmptyString => Some acc
  | String c s' =>
      match digit c with
      | Some n => digits (10 * acc + n) s'
      | None => None
      end
  end.

Definition unsigned_of_string (s : string) : option Z :=
  if decide (s = "") then None else digits 0 s.

(** A decimal number with an optional sign, within the 64 bits of an
    [IntegerField] column. *)
Definition int_of_string (s : string) : option Z :=
  let n :=
    match s with
    | String "-"%char s' => Z.opp <$> unsigned_of_string s'
    | String "+"%char s' => unsigned_of_string s'
    | _ => unsigned_of_string s
    end in
  match n with
  | Some z => if bool_decide (- 2 ^ 63 ≤ z ≤ 2 ^ 63 - 1)%Z then Some z else None
  | None => None
  end.

(** The white space of ASCII: tab to carriage return, the four
    separators and the blank. *)
Definition is_space (c : ascii) : bool :=
  let n := N_of_ascii c in
  bool_decide ((9 ≤ n ≤ 13)%N ∨ (28 ≤ n ≤ 32)%N).

Fixpoint lstrip (s : string) : string :=
  match s with
  | String c s' => if is_space c then lstrip s' else s
  | EmptyString => s
  end.

Definition str_strip (s : string) : string :=
  String.rev (lstrip (String.rev (lstrip s))).

Definition is_leap (y : Z) : bool :=
  bool_decide (y mod 4 = 0 ∧ (y mod 100 ≠ 0 ∨ y mod 400 = 0))%Z.

Definition days_in_month (y m : Z) : Z :=
  if bool_decide (m = 2)%Z then (if is_leap y then 29 else 28)
  else if bool_decide (m = 4 ∨ m = 6 ∨ m = 9 ∨ m = 11)%Z then 30
  else 31.

(** A day of the calendar written [YYYY-MM-DD]. *)
Definition date_of_string (s : string) : option date :=
  if decide (String.length s = 10%nat ∧ substring 4 1 s = "-" ∧ substring 7 1 s = "-") then
    match unsigned_of_string (substring 0 4 s), unsigned_of_string (substring 5 2 s),
          unsigned_of_string (substring 8 2 s) with
    | Some y, Some m, Some d =>
        if bool_decide (1 ≤ y ∧ 1 ≤ m ≤ 12 ∧ 1 ≤ d ≤ days_in_month y m)%Z
        then Some (mkdate y m d) else None
    | _, _, _ => None
    end
  else None.

Definition lower (c : ascii) : ascii :=
  let n := N_of_ascii c in
  if bool_decide (65 ≤ n ≤ 90)%N then ascii_of_N (n + 32) else c.

Fixpoint lower_string (s : string) : string :=
  match s with
  | EmptyString => EmptyString
  | String c s' => String (lower c) (lower_string s')
  end.

Definition django : Django := {|
  strip := str_strip;
  len := String.length;
  IntegerField_to_python := int_of_string;
  DateField_to_python := date_of_string;
  normalize := λ s, s;
  username_validator := λ _, true;
  iexact := λ a b, bool_decide (lower_string a = lower_string b);
  validate_password := λ p _, bool_decide (8 ≤ String.length p)%nat;
  make_password := λ p, p;
  check_password := λ p h, bool_decide (p = h);
  LOGIN_URL := "/accounts/login/";
  LoginView_success_url := λ post, default "/cats/" (post !! "next")
|}.

Definition post (p : QueryDict) : HttpRequest.t := HttpRequest.mk "/" POST p.
Definition get : HttpRequest.t := HttpRequest.mk "/" GET ∅.

Definition ann : N := 1.
Definition bob : N := 2.
Definition whiskers : Cat.t := Cat.mk "Whiskers" "Tabby" "sleeps all day" 2 ann.

(** Two users, [ann] and [bob]; ann has two cats, and three feedings of
    the first one, [whiskers]. *)
Definition db0 : DB :=
  @serve_all django empty_db
    [ (None, url_signup,
       post {[ "username" := "ann"; "password1" := "correct horse";
               "password2" := "correct horse" ]});
      (None, url_signup,
       post {[ "username" := "bob"; "password1" := "battery staple";
               "password2" := "battery staple" ]});
      (Some ann, url_cat_create,
       post {[ "name" := "Whiskers"; "breed" := "Tabby";
               "description" := "sleeps all day"; "age" := "2" ]});
      (Some ann, url_cat_create,
       post {[ "name" := "Tom"; "breed" := "Siamese";
               "description" := "loud"; "age" := "5"; "user" := "2" ]});
      (Some ann, url_add_feeding 1, post {[ "date" := "2024-01-01"; "meal" := "B" ]});
      (Some ann, url_add_feeding 1, post {[ "date" := "2024-03-05"; "meal" := "D" ]});
      (Some ann, url_add_feeding 1, post {[ "date" := "2023-12-31"; "meal" := "L" ]});
      (Some ann, url_add_feeding 2, post {[ "date" := "2024-02-02"; "meal" := "L" ]}) ].

End Example.

(** The requests that build [Example.db0], some further requests, and the
    database after ann has added a toy. *)
Module Scenario.

Definition requests : list (option N * URL * HttpRequest.t) :=
  [ (None, url_signup,
     Example.post {[ "username" := "ann"; "password1" := "correct horse";
                     "password2" := "correct horse" ]});
    (None, url_signup,
     Example.post {[ "username" := "bob"; "password1" := "battery staple";
                     "password2" := "battery staple" ]});
    (Some Example.ann, url_cat_create,
     Example.post {[ "name" := "Whiskers"; "breed" := "Tabby";
                     "description" := "sleeps all day"; "age" := "2" ]});
    (Some Example.ann, url_cat_create,
     Example.post {[ "name" := "Tom"; "breed" := "Siamese";
                     "description" := "loud"; "age" := "5"; "user" := "2" ]});
    (Some Example.ann, url_add_feeding 1,
     Example.post {[ "date" := "2024-01-01"; "meal" := "B" ]});
    (Some Example.ann, url_add_feeding 1,
     Example.post {[ "date" := "2024-03-05"; "meal" := "D" ]});
    (Some Example.ann, url_add_feeding 1,
     Example.post {[ "date" := "2023-12-31"; "meal" := "L" ]});
    (Some Example.ann, url_add_feeding 2,
     Example.post {[ "date" := "2024-02-02"; "meal" := "L" ]}) ].

Definition bob_updates_whiskers : option N * URL * HttpRequest.t :=
  (Some Example.bob, url_cat_update 1,
   Example.post {[ "name" := "Garfield"; "breed" := "Persian";
                   "description" := "fluffy"; "age" := "3" ]}).

Definition bob_deletes_whiskers : option N * URL * HttpRequest.t :=
  (Some Example.bob, url_cat_delete 1, Example.post ∅).

Definition felix : QueryDict :=
  {[ "name" := "Felix"; "breed" := "Alley"; "description" := "black and white";
     "age" := "4" ]}.

Definition ball : Toy.t := Toy.mk "Ball" "red".

Definition db1 : DB :=
  @serve Example.django Example.db0
    (Some Example.ann, url_toy_create, Example.post {[ "name" := "Ball"; "color" := "red" ]}).

End Scenario.

(** * Properties *)

Section ownership.
Context {dj : Django}.

Lemma Cat_filter_user_lookup (u id : N) (c : Cat.t) (d : DB) :
  Cat_filter_user u d !! id = Some c ↔ Cat_objects d !! id = Some c ∧ Cat.user c = u.
Proof. unfold Cat_filter_user. by rewrite map_lookup_filter_Some. Qed.

Lemma Cat_get_Some (cat_id u : N) (c : Cat.t) (d : DB) :
  Cat_get cat_id u d = Some c ↔ Cat_objects d !! cat_id = Some c ∧ Cat.user c = u.
Proof.
  unfold Cat_get. destruct (Cat_objects d !! cat_id) as [c'|].
  - case_decide; split; try intros [[= ->] ?]; try intros [= ->]; done.
  - split; [done|]. by intros [? _].
Qed.

Lemma Cat_get_None (cat_id u : N) (d : DB) :
  Cat_get cat_id u d = None ↔
  Cat_objects d !! cat_id = None ∨
  ∃ c, Cat_objects d !! cat_id = Some c ∧ Cat.user c ≠ u.
Proof.
  unfold Cat_get. destruct (Cat_objects d !! cat_id) as [c'|].
  - case_decide; split; try done.
    + intros [|(c & [= ->] & ?)]; done.
    + intros _. right. by exists c'.
  - split; [by left | done].
Qed.

(** C1.  With the session of user [U], the cat list renders the index
    template with a queryset that holds a cat of the table exactly when its
    owner is [U]: every cat of [U], and no cat of anybody else. *)
Theorem cat_index_own_cats_only (U : N) (request : HttpRequest.t) (d : DB) :
  ∃ cats,
    cat_index request (mkEnv d (Some U))
      = (Response (render "cats/index.html" [("cats", VCats cats)]), mkEnv d (Some U))
    ∧ ∀ id C, cats !! id = Some C ↔ Cat_objects d !! id = Some C ∧ Cat.user C = U.
Proof.
  exists (Cat_filter_user U d). split; [reflexivity|].
  intros id C. apply Cat_filter_user_lookup.
Qed.

(** C7.  When the cat id is not in the table, or is the id of a cat of
    another user, the detail view and the add-feeding view both leave
    [Cat.DoesNotExist] unhandled: the outcome is that exception, which the
    framework answers with status 500 (not a 404 page, not a redirect),
    and the state, the Feeding table included, is as it was. *)
Theorem lookup_failure_unhandled (U cat_id : N) (request : HttpRequest.t) (d : DB) :
  (Cat_objects d !! cat_id = None ∨
   ∃ C, Cat_objects d !! cat_id = Some C ∧ Cat.user C ≠ U) →
  cat_detail cat_id request (mkEnv d (Some U)) = (Raise DoesNotExist, mkEnv d (Some U))
  ∧ add_feeding cat_id request (mkEnv d (Some U)) = (Raise DoesNotExist, mkEnv d (Some U))
  ∧ status_code (Raise DoesNotExist) = 500%Z
  ∧ Feeding_objects (db (add_feeding cat_id request (mkEnv d (Some U))).2)
      = Feeding_objects d.
Proof.
  intros Hmiss%Cat_get_None.
  unfold cat_detail, add_feeding, login_required; simpl.
  rewrite Hmiss. done.
Qed.

(** An unknown meal code, a date the field cannot read, and data with
    no date at all are three ways for the feeding form to be invalid. *)
Lemma FeedingForm_invalid_meal (post : QueryDict) (m : string) :
  post !! "meal" = Some m → m ∉ MEALS.*1 →
  is_valid (FeedingForm (Some post)) = false.
Proof.
  intros Hm Hnot. unfold FeedingForm, ChoiceField_clean. rewrite Hm. simpl default.
  destruct (DateField_clean (post !! "date")); repeat case_decide; done.
Qed.

Lemma FeedingForm_invalid_date (post : QueryDict) (s : string) :
  post !! "date" = Some s → DateField_to_python s = None →
  is_valid (FeedingForm (Some post)) = false.
Proof.
  intros Hd Hbad. unfold FeedingForm, DateField_clean. rewrite Hd. simpl default.
  case_decide; [done|]. rewrite Hbad. done.
Qed.

Lemma FeedingForm_invalid_absent (post : QueryDict) :
  post !! "date" = None → is_valid (FeedingForm (Some post)) = false.
Proof. intros Hd. unfold FeedingForm, DateField_clean. rewrite Hd. done. Qed.

Lemma FeedingForm_invalid_empty : is_valid (FeedingForm (Some ∅)) = false.
Proof. apply FeedingForm_invalid_absent. apply lookup_empty. Qed.

(** C6.  For a cat [C] of the requesting user, a submission the feeding
    form rejects is answered by a redirect to the detail page of [C], and
    the state is exactly the one before the request: no Feeding row is
    created, and nothing in the response tells of the rejection. *)
Theorem add_feeding_invalid_is_dropped (U cat_id : N) (C : Cat.t)
    (request : HttpRequest.t) (d : DB) :
  Cat_objects d !! cat_id = Some C →
  Cat.user C = U →
  is_valid (FeedingForm (Some (HttpRequest.POST request))) = false →
  add_feeding cat_id request (mkEnv d (Some U))
    = (Response (redirect (Cat.get_absolute_url cat_id)), mkEnv d (Some U)).
Proof.
  intros Hc Hu Hinv.
  assert (Cat_get cat_id U d = Some C) as Hget by (apply Cat_get_Some; done).
  unfold add_feeding, login_required. cbn [session db]. cbv zeta.
  rewrite Hget, Hinv. done.
Qed.

(** C5.  Whatever the request to the update view of an existing cat [C]
    (any method, any session, any payload, a payload with a [name]
    included), the row of [C] is still there afterwards and has the name
    it had. *)
Theorem CatUpdate_keeps_name (who : option N) (pk : N) (C : Cat.t)
    (request : HttpRequest.t) (d : DB) :
  Cat_objects d !! pk = Some C →
  ∃ C', Cat_objects (db (CatUpdate pk request (mkEnv d who)).2) !! pk = Some C'
        ∧ Cat.name C' = Cat.name C.
Proof.
  intros Hc. unfold CatUpdate, LoginRequiredMixin, login_required.
  cbn [session db]. cbv zeta.
  destruct who as [u|]; [|by eauto].
  rewrite Hc. destruct (HttpRequest.method request); [by eauto|].
  destruct (is_valid (CatUpdate_form C _)); [|by eauto].
  destruct (cleaned_data (CatUpdate_form C _)) as [[[b de] a]|]; [|by eauto].
  cbn. rewrite lookup_insert_eq. eauto.
Qed.

End ownership.

Section generic_views.
Context {dj : Django}.

(** The create form reads the fields it declares and nothing else. *)
Lemma CatCreate_form_declared_fields (p1 p2 : QueryDict) :
  (∀ k, k ∈ ["name"; "breed"; "description"; "age"] → p1 !! k = p2 !! k) →
  errors (CatCreate_form (Some p1)) = errors (CatCreate_form (Some p2))
  ∧ cleaned_data (CatCreate_form (Some p1)) = cleaned_data (CatCreate_form (Some p2)).
Proof.
  intros Hk. unfold CatCreate_form.
  rewrite (Hk "name"), (Hk "breed"), (Hk "description"), (Hk "age")
    by (rewrite !elem_of_cons; auto 6).
  done.
Qed.

Lemma CatCreate_form_reads_fields (p1 p2 : QueryDict) :
  delete "user" p1 = delete "user" p2 →
  errors (CatCreate_form (Some p1)) = errors (CatCreate_form (Some p2))
  ∧ cleaned_data (CatCreate_form (Some p1)) = cleaned_data (CatCreate_form (Some p2)).
Proof.
  intros Heq. apply CatCreate_form_declared_fields. intros k Hin.
  assert (k ≠ "user") as Hne.
  { intros ->. rewrite !elem_of_cons, elem_of_nil in Hin.
    destruct Hin as [?|[?|[?|[?|[]]]]]; discriminate. }
  rewrite <-(lookup_delete_ne p1 "user" k), <-(lookup_delete_ne p2 "user" k) by done.
  by rewrite Heq.
Qed.

(** A bound create form is valid exactly when it has cleaned data. *)
Lemma CatCreate_form_is_valid (p : QueryDict) :
  is_valid (CatCreate_form (Some p)) = bool_decide (is_Some (cleaned_data (CatCreate_form (Some p)))).
Proof.
  unfold CatCreate_form.
  destruct (CharField_clean (Some 100%nat) (p !! "name")),
           (CharField_clean (Some 100%nat) (p !! "breed")),
           (CharField_clean (Some 250%nat) (p !! "description")),
           (IntegerField_clean (p !! "age")); done.
Qed.

(** What a POST to the create view does: a valid form is saved as a new
    row owned by the session user, an invalid one changes nothing. *)
Lemma CatCreate_post (U : N) (d : DB) (path : string) (p : QueryDict) :
  match cleaned_data (CatCreate_form (Some p)) with
  | Some (n, b, de, a) =>
      CatCreate (HttpRequest.mk path POST p) (mkEnv d (Some U))
      = (Response (redirect (Cat.get_absolute_url (Cat_seq d))),
         mkEnv (set_Cat_objects (<[Cat_seq d := Cat.mk n b de a U]> (Cat_objects d))
                  (N.succ (Cat_seq d)) d) (Some U))
  | None =>
      CatCreate (HttpRequest.mk path POST p) (mkEnv d (Some U))
      = (Response (render "main_app/cat_form.html"
           [("form", as_value (CatCreate_form (Some p)))]), mkEnv d (Some U))
  end.
Proof.
  unfold CatCreate, LoginRequiredMixin, login_required, CatCreate_form_valid.
  cbn [session db HttpRequest.method HttpRequest.POST]. cbv zeta.
  rewrite CatCreate_form_is_valid.
  destruct (cleaned_data (CatCreate_form (Some p))) as [[[[n b] de] a]|]; done.
Qed.

(** C2.  For a user [U] and a submitted payload [p1]: when the form is
    valid the create view persists one row, under the next key, whose
    owner is [U], and when it is not the view persists nothing; and a
    payload [p2] that differs from [p1] at most in the value it gives for
    [user] leaves the same state and the same kind of answer, so the owner
    does not depend on what the client sends. *)
Theorem CatCreate_owner_is_session_user (U : N) (d : DB) (path : string)
    (p1 p2 : QueryDict) :
  delete "user" p1 = delete "user" p2 →
  let create p := CatCreate (HttpRequest.mk path POST p) (mkEnv d (Some U)) in
  (if is_valid (CatCreate_form (Some p1)) then
     ∃ C, Cat.user C = U
          ∧ (create p1).1 = Response (redirect (Cat.get_absolute_url (Cat_seq d)))
          ∧ db (create p1).2
            = set_Cat_objects (<[Cat_seq d := C]> (Cat_objects d)) (N.succ (Cat_seq d)) d
   else (create p1).2 = mkEnv d (Some U))
  ∧ (create p1).2 = (create p2).2
  ∧ status_code (create p1).1 = status_code (create p2).1.
Proof.
  intros Heq create. unfold create.
  destruct (CatCreate_form_reads_fields p1 p2 Heq) as [_ Hcd].
  pose proof (CatCreate_post U d path p1) as H1.
  pose proof (CatCreate_post U d path p2) as H2.
  rewrite <-Hcd in H2. rewrite CatCreate_form_is_valid.
  destruct (cleaned_data (CatCreate_form (Some p1))) as [[[[n b] de] a]|].
  - rewrite H1, H2. split; [|done].
    rewrite bool_decide_eq_true_2 by eauto.
    exists (Cat.mk n b de a U). done.
  - rewrite H1, H2. split; [|done].
    rewrite bool_decide_eq_false_2; [done|]. by intros [? ?].
Qed.

(** C3.  For any session user [U] and any cat [C] of the table, whoever
    owns it: a POST to the update view whose three fields are valid
    leaves, under the id of [C], a row with the name and the owner of [C]
    and the cleaned breed, description and age, leaves every other row as
    it was and redirects to the page of the cat; a POST to the delete
    view leaves no row under the id, every other row as it was, and
    redirects to [/cats/], the path of the cat list.  Neither view looks
    at the owner: the result is the same for every session user. *)
Theorem CatUpdate_CatDelete_any_user (U : N) (pk : N) (C : Cat.t) (d : DB)
    (path : string) (p : QueryDict) (b de : string) (a : Z) :
  Cat_objects d !! pk = Some C →
  CharField_clean (Some 100%nat) (p !! "breed") = Valid b →
  CharField_clean (Some 250%nat) (p !! "description") = Valid de →
  IntegerField_clean (p !! "age") = Valid a →
  let request := HttpRequest.mk path POST p in
  CatUpdate pk request (mkEnv d (Some U))
    = (Response (redirect (Cat.get_absolute_url pk)),
       mkEnv (set_Cat_objects
                (<[pk := Cat.mk (Cat.name C) b de a (Cat.user C)]> (Cat_objects d))
                (Cat_seq d) d) (Some U))
  ∧ CatDelete pk request (mkEnv d (Some U))
    = (Response (redirect "/cats/"), mkEnv (Cat_delete pk d) (Some U))
  ∧ Cat_objects (Cat_delete pk d) !! pk = None
  ∧ reverse url_cat_index = "/cats/"
  ∧ (∀ U', (CatUpdate pk request (mkEnv d (Some U'))).1
            = (CatUpdate pk request (mkEnv d (Some U))).1
          ∧ db (CatUpdate pk request (mkEnv d (Some U'))).2
            = db (CatUpdate pk request (mkEnv d (Some U))).2
          ∧ (CatDelete pk request (mkEnv d (Some U'))).1
            = (CatDelete pk request (mkEnv d (Some U))).1
          ∧ db (CatDelete pk request (mkEnv d (Some U'))).2
            = db (CatDelete pk request (mkEnv d (Some U))).2)
  ∧ Cat_objects (db (CatUpdate pk request (mkEnv d (Some U))).2) !! pk
    = Some (Cat.mk (Cat.name C) b de a (Cat.user C))
  ∧ (∀ k, k ≠ pk →
       Cat_objects (db (CatUpdate pk request (mkEnv d (Some U))).2) !! k
       = Cat_objects d !! k)
  ∧ Cat_objects (db (CatDelete pk request (mkEnv d (Some U))).2) !! pk = None
  ∧ (∀ k, k ≠ pk →
       Cat_objects (db (CatDelete pk request (mkEnv d (Some U))).2) !! k
       = Cat_objects d !! k).
Proof.
  intros Hc Hb Hde Ha request.
  unfold CatUpdate, CatDelete, LoginRequiredMixin, login_required, request.
  cbn [session db HttpRequest.method HttpRequest.POST]. cbv zeta.
  rewrite Hc. unfold CatUpdate_form. rewrite Hb, Hde, Ha.
  cbn. rewrite lookup_delete_eq, lookup_insert_eq. split_and!; try done.
  - intros k Hne. by apply lookup_insert_ne.
  - intros k Hne. by apply lookup_delete_ne.
Qed.

End generic_views.

Section integrity.
Context {dj : Django}.

Lemma no_orphans_empty : no_orphans empty_db.
Proof. unfold no_orphans, empty_db; simpl. apply map_Forall_empty. Qed.

Lemma no_orphans_same_tables (d d' : DB) :
  Cat_objects d' = Cat_objects d → Feeding_objects d' = Feeding_objects d →
  no_orphans d → no_orphans d'.
Proof. unfold no_orphans. by intros -> ->. Qed.

Lemma no_orphans_Cat_insert (k s : N) (c : Cat.t) (d : DB) :
  no_orphans d → no_orphans (set_Cat_objects (<[k := c]> (Cat_objects d)) s d).
Proof.
  unfold no_orphans; simpl. intros Hd.
  eapply map_Forall_impl; [exact Hd|].
  intros i f Hf. simpl. rewrite lookup_insert_is_Some.
  destruct (decide (k = Feeding.cat f)); auto.
Qed.

Lemma Cat_delete_feedings (pk k : N) (f : Feeding.t) (d : DB) :
  Feeding_objects (Cat_delete pk d) !! k = Some f
  ↔ Feeding_objects d !! k = Some f ∧ Feeding.cat f ≠ pk.
Proof. unfold Cat_delete; simpl. by rewrite map_lookup_filter_Some. Qed.

Lemma no_orphans_Cat_delete (pk : N) (d : DB) :
  no_orphans d → no_orphans (Cat_delete pk d).
Proof.
  intros Hd k f [Hf Hne]%Cat_delete_feedings.
  unfold Cat_delete; simpl. rewrite lookup_delete_ne by done.
  exact (Hd k f Hf).
Qed.

Lemma no_orphans_Feeding_save (f : Feeding.t) (d : DB) :
  is_Some (Cat_objects d !! Feeding.cat f) →
  no_orphans d → no_orphans (Feeding_save f d).
Proof.
  intros Hcat Hd k f'. unfold Feeding_save; simpl.
  rewrite lookup_insert. case_decide.
  - by intros [= <-].
  - apply Hd.
Qed.

(** The cascade takes away exactly the feedings of the cat. *)
Lemma Cat_delete_size (pk : N) (d : DB) :
  size (Feeding_objects d)
  = (size (Feeding_objects (Cat_delete pk d)) + size (feedings_of pk d))%nat.
Proof.
  unfold Cat_delete, feedings_of; simpl.
  set (P := λ kf : N * Feeding.t, Feeding.cat kf.2 = pk).
  rewrite <-(map_filter_union_complement P (Feeding_objects d)) at 1.
  rewrite map_size_disj_union by apply map_disjoint_filter_complement.
  apply Nat.add_comm.
Qed.

Ltac view_cases :=
  repeat match goal with
         | |- context [match ?x with _ => _ end] => destruct x eqn:?; try done
         end.

Lemma serve_no_orphans (d : DB) (r : option N * URL * HttpRequest.t) :
  no_orphans d → no_orphans (serve d r).
Proof.
  intros Hd. destruct r as [[who u] request]. unfold serve.
  destruct (get_user who d) as [user|]; destruct u;
    unfold urlpatterns, Home, homeTwo, about, cat_index, cat_detail, CatCreate,
           CatCreate_form_valid, CatUpdate, CatDelete, add_feeding, ToyCreate,
           toy_detail, ToyList, signup, User_save, login,
           LoginRequiredMixin, login_required;
    cbn [session db]; cbv zeta; try done.
  all: view_cases; cbn [snd db].
  all: try (by apply no_orphans_Cat_insert).
  all: try (by apply no_orphans_Cat_delete).
  all: try (by eapply no_orphans_same_tables; [| |exact Hd]).
  all: apply no_orphans_Feeding_save; [|done].
  all: match goal with Hg : Cat_get _ _ _ = Some _ |- _ =>
         apply Cat_get_Some in Hg as [Hg _]; simpl; by rewrite Hg end.
Qed.

Lemma serve_all_no_orphans (d : DB) (rs : list (option N * URL * HttpRequest.t)) :
  no_orphans d → no_orphans (serve_all d rs).
Proof.
  unfold serve_all. revert d.
  induction rs as [|r rs IH]; intros d Hd; simpl; [done|].
  apply IH, serve_no_orphans, Hd.
Qed.

Lemma keys_below_insert_next {A} (m : gmap N A) (s : N) (x : A) :
  keys_below m s → keys_below (<[s := x]> m) (N.succ s).
Proof.
  intros Hm k. rewrite lookup_insert_is_Some.
  intros [<-|[_ Hk]]; [lia|]. apply Hm in Hk. lia.
Qed.

Lemma keys_below_insert_same {A} (m : gmap N A) (s k : N) (x : A) :
  is_Some (m !! k) → keys_below m s → keys_below (<[k := x]> m) s.
Proof.
  intros Hk Hm k'. rewrite lookup_insert_is_Some.
  intros [<-|[_ Hk']]; by apply Hm.
Qed.

Lemma keys_below_delete {A} (m : gmap N A) (s k : N) :
  keys_below m s → keys_below (delete k m) s.
Proof.
  intros Hm k'. rewrite lookup_delete_is_Some. intros [_ Hk']. by apply Hm.
Qed.

Lemma keys_below_filter {A} (P : N * A → Prop) `{!∀ x, Decision (P x)}
    (m : gmap N A) (s : N) :
  keys_below m s → keys_below (filter P m) s.
Proof.
  intros Hm k [x Hx]. apply map_lookup_filter_Some in Hx as [Hx _]. apply Hm. eauto.
Qed.

Lemma fresh_keys_empty : fresh_keys empty_db.
Proof. repeat split; intros k; simpl; rewrite lookup_empty; by intros [? ?]. Qed.

(** The sequences stay ahead of the tables, so a create view never
    writes over a row. *)
Lemma serve_fresh_keys (d : DB) (r : option N * URL * HttpRequest.t) :
  fresh_keys d → fresh_keys (serve d r).
Proof.
  intros (Hu & Hc & Hf & Ht). destruct r as [[who u] request]. unfold serve.
  destruct (get_user who d) as [user|]; destruct u;
    unfold urlpatterns, Home, homeTwo, about, cat_index, cat_detail, CatCreate,
           CatCreate_form_valid, CatUpdate, CatDelete, add_feeding, ToyCreate,
           toy_detail, ToyList, signup, User_save, login,
           LoginRequiredMixin, login_required;
    cbn [session db]; cbv zeta; try done.
  all: view_cases; unfold fresh_keys; cbn; split_and!; try done.
  all: try (by apply keys_below_insert_next).
  all: try (by apply keys_below_delete).
  all: try (by apply keys_below_filter).
  all: by apply keys_below_insert_same.
Qed.

Lemma serve_all_fresh_keys (rs : list (option N * URL * HttpRequest.t)) :
  fresh_keys (serve_all empty_db rs).
Proof.
  unfold serve_all. generalize fresh_keys_empty. generalize empty_db.
  induction rs as [|r rs IH]; intros d Hd; simpl; [done|].
  apply IH, serve_fresh_keys, Hd.
Qed.

Lemma fresh_keys_next_cat (d : DB) : fresh_keys d → Cat_objects d !! Cat_seq d = None.
Proof.
  intros (_ & Hc & _). apply eq_None_not_Some. intros Hk%Hc. lia.
Qed.

(** C4.  A POST to the delete view of a cat [C] that has [n] feedings
    leaves a Feeding table with exactly the rows of the other cats, [n]
    rows fewer, and no row of [C] in the Cat table; and whatever requests
    are served, from the empty database or from any database without
    orphans, no Feeding row refers to a cat that is not in the Cat
    table. *)
Theorem CatDelete_cascades_to_feedings (U pk : N) (C : Cat.t) (d : DB)
    (path : string) (p : QueryDict) (rs : list (option N * URL * HttpRequest.t)) :
  Cat_objects d !! pk = Some C →
  let d' := db (CatDelete pk (HttpRequest.mk path POST p) (mkEnv d (Some U))).2 in
  (∀ k f, Feeding_objects d' !! k = Some f
          ↔ Feeding_objects d !! k = Some f ∧ Feeding.cat f ≠ pk)
  ∧ size (Feeding_objects d) = (size (Feeding_objects d') + size (feedings_of pk d))%nat
  ∧ feedings_of pk d' = ∅
  ∧ Cat_objects d' !! pk = None
  ∧ no_orphans (serve_all empty_db rs)
  ∧ (no_orphans d → no_orphans (serve_all d rs) ∧ no_orphans (serve_all d' rs)).
Proof.
  intros Hc d'.
  assert (d' = Cat_delete pk d) as ->.
  { unfold d', CatDelete, LoginRequiredMixin, login_required.
    cbn [session db HttpRequest.method]. by rewrite Hc. }
  split_and!.
  - intros k f. apply Cat_delete_feedings.
  - apply Cat_delete_size.
  - apply map_eq. intros k. rewrite lookup_empty. apply eq_None_not_Some.
    intros [f Hf]. unfold feedings_of in Hf.
    apply map_lookup_filter_Some in Hf as [Hf Hcat].
    apply Cat_delete_feedings in Hf as [_ Hne]. done.
  - unfold Cat_delete; simpl. apply lookup_delete_eq.
  - apply serve_all_no_orphans, no_orphans_empty.
  - intros Hd. split; apply serve_all_no_orphans; [done|].
    by apply no_orphans_Cat_delete.
Qed.

End integrity.

Section ordering.
Context {A : Type} (before : A → A → bool).
Hypothesis before_total : ∀ a b, before a b = false → before b a = true.
Hypothesis before_trans :
  ∀ a b c, before a b = true → before b c = true → before a c = true.

Lemma insert_by_perm (x : A) (l : list A) : insert_by before x l ≡ₚ x :: l.
Proof.
  induction l as [|y l IH]; simpl; [done|].
  destruct (before x y); [done|].
  rewrite IH. apply Permutation_swap.
Qed.

Lemma order_by_perm (l : list A) : order_by before l ≡ₚ l.
Proof.
  induction l as [|x l IH]; simpl; [done|].
  fold (order_by before l). rewrite insert_by_perm. by rewrite IH.
Qed.

Lemma insert_by_sorted (x : A) (l : list A) :
  StronglySorted (λ a b, before a b = true) l →
  StronglySorted (λ a b, before a b = true) (insert_by before x l).
Proof.
  induction 1 as [|y l Hl IH Hy]; simpl.
  - repeat constructor.
  - destruct (before x y) eqn:Hxy.
    + constructor; [by constructor|].
      constructor; [done|].
      eapply Forall_impl; [exact Hy|]. intros z Hz. by eapply before_trans.
    + constructor; [done|].
      rewrite insert_by_perm. constructor; [by apply before_total | done].
Qed.

Lemma order_by_sorted (l : list A) :
  StronglySorted (λ a b, before a b = true) (order_by before l).
Proof.
  induction l as [|x l IH]; simpl; [constructor|].
  by apply insert_by_sorted.
Qed.

(** In an ordered listing no row stands before a row that should come
    first: if [b] is not allowed before [a], the place of [a] is the
    earlier one. *)
Lemma order_by_places (l : list A) (i j : nat) (a b : A) :
  order_by before l !! i = Some a → order_by before l !! j = Some b →
  before b a = false → (i < j)%nat.
Proof.
  pose proof (order_by_sorted l) as Hs. revert i j.
  induction Hs as [|y l' Hl IH Hy]; intros i j Hi Hj Hba; [done|].
  destruct i as [|i], j as [|j]; simpl in *.
  - simplify_eq. apply before_total in Hba as Hab. congruence.
  - lia.
  - simplify_eq. rewrite Forall_forall in Hy.
    assert (before b a = true) by (apply Hy; by eapply list_elem_of_lookup_2).
    congruence.
  - apply ->Nat.succ_lt_mono. by apply IH.
Qed.

End ordering.

Section feedings.

Lemma date_leb_total (a b : date) : date_leb a b = false → date_leb b a = true.
Proof.
  unfold date_leb. repeat case_decide;
    rewrite ?bool_decide_eq_true, ?bool_decide_eq_false; try lia; congruence.
Qed.

Lemma date_leb_trans (a b c : date) :
  date_leb a b = true → date_leb b c = true → date_leb a c = true.
Proof.
  unfold date_leb. repeat case_decide;
    rewrite ?bool_decide_eq_true, ?bool_decide_eq_false; try lia; congruence.
Qed.

Lemma Feeding_ordering_total (a b : N * Feeding.t) :
  Feeding_ordering a b = false → Feeding_ordering b a = true.
Proof. apply date_leb_total. Qed.

Lemma Feeding_ordering_trans (a b c : N * Feeding.t) :
  Feeding_ordering a b = true → Feeding_ordering b c = true →
  Feeding_ordering a c = true.
Proof. unfold Feeding_ordering. intros ??. by eapply date_leb_trans. Qed.

Lemma latest_first_order_by (l : list (N * Feeding.t)) :
  latest_first (order_by Feeding_ordering l).
Proof.
  intros i j a b Hi Hj Hlt.
  eapply (order_by_places Feeding_ordering);
    eauto using Feeding_ordering_total, Feeding_ordering_trans.
Qed.

(** C8.  The feedings of a cat, and the feedings of the whole table, are
    listed by date descending: a feeding with a later date than another
    stands before it.  The listing of a cat holds the rows of the Feeding
    table that refer to it, each once. *)
Theorem feedings_listed_latest_first (cat_id : N) (d : DB) :
  latest_first (Cat_feedings cat_id d)
  ∧ latest_first (Feeding_all d)
  ∧ Cat_feedings cat_id d ≡ₚ map_to_list (feedings_of cat_id d)
  ∧ ∀ k f, (k, f) ∈ Cat_feedings cat_id d
           ↔ Feeding_objects d !! k = Some f ∧ Feeding.cat f = cat_id.
Proof.
  split_and!.
  - apply latest_first_order_by.
  - apply latest_first_order_by.
  - apply order_by_perm.
  - intros k f. unfold Cat_feedings. rewrite order_by_perm.
    rewrite elem_of_map_to_list. unfold feedings_of.
    by rewrite map_lookup_filter_Some.
Qed.

End feedings.

Section signup_failure.
Context {dj : Django}.

(** Different passwords in the two password fields make the form
    invalid. *)
Lemma UserCreationForm_mismatch (d : DB) (post : QueryDict) (p1 p2 : string) :
  post !! "password1" = Some p1 → post !! "password2" = Some p2 → p1 ≠ p2 →
  is_valid (UserCreationForm d (Some post)) = false.
Proof.
  intros H1 H2 Hne. unfold UserCreationForm, PasswordField_clean, null_characters.
  rewrite H1, H2. simpl default.
  destruct (UsernameField_clean (post !! "username")) as [u|];
    [destruct (negb (username_validator u)); [|destruct (username_taken u d)]|];
    repeat case_decide; destruct (in_string zero p1), (in_string zero p2); try done;
    by rewrite (bool_decide_eq_true_2 (p1 ≠ p2)).
Qed.

(** What the view answers to a POST the form rejects. *)
Lemma signup_invalid (request : HttpRequest.t) (env : Env) :
  HttpRequest.method request = POST →
  is_valid (UserCreationForm (db env) (Some (HttpRequest.POST request))) = false →
  signup request env
  = (Response (render "signup.html"
       [("form", as_value (UserCreationForm (db env) None));
        ("error_message", VStr "Invalid sign up - try again")]), env).
Proof. intros Hm Hinv. unfold signup. cbv zeta. by rewrite Hm, Hinv. Qed.

(** C9.  A signup POST the form rejects creates no user (the state is
    the one before the request) and renders the signup template again,
    with the generic error message and a form that carries no error of
    any field. *)
Theorem signup_invalid_generic_error (request : HttpRequest.t) (env : Env) :
  HttpRequest.method request = POST →
  is_valid (UserCreationForm (db env) (Some (HttpRequest.POST request))) = false →
  signup request env
  = (Response (render "signup.html"
       [("form", VForm false ∅ ∅ []);
        ("error_message", VStr "Invalid sign up - try again")]), env)
  ∧ User_objects (db (signup request env).2) = User_objects (db env).
Proof. intros Hm Hinv. by rewrite signup_invalid. Qed.

(** C10.  After a signup POST the form rejects, the form of the response
    is the form [UserCreationForm()] builds, unbound, without data and
    without errors, though the form that was validated held the
    submitted data and at least one error; every value of the context is
    that form or the generic message; and the answer is the same for
    every rejected submission. *)
Theorem signup_invalid_form_is_fresh (request request' : HttpRequest.t) (env : Env) :
  HttpRequest.method request = POST →
  is_valid (UserCreationForm (db env) (Some (HttpRequest.POST request))) = false →
  let submitted := UserCreationForm (db env) (Some (HttpRequest.POST request)) in
  ∃ context,
    (signup request env).1 = Response (render "signup.html" context)
    ∧ context_get "form" context = Some (as_value (UserCreationForm (db env) None))
    ∧ as_value (UserCreationForm (db env) None) = VForm false ∅ ∅ []
    ∧ data submitted = HttpRequest.POST request
    ∧ errors submitted ≠ []
    ∧ (∀ k v, (k, v) ∈ context →
         v = VForm false ∅ ∅ [] ∨ v = VStr "Invalid sign up - try again")
    ∧ (HttpRequest.method request' = POST →
       is_valid (UserCreationForm (db env) (Some (HttpRequest.POST request'))) = false →
       signup request' env = signup request env).
Proof.
  intros Hm Hinv submitted. rewrite signup_invalid by done.
  eexists. split; [reflexivity|]. split_and!; try done.
  - intros Herr. unfold is_valid in Hinv. fold submitted in Hinv.
    rewrite Herr in Hinv. unfold submitted, UserCreationForm in Hinv. done.
  - intros k v Hin. rewrite !elem_of_cons in Hin.
    destruct Hin as [[= _ ->]|[[= _ ->]|Hin]]; [by left|by right|].
    by apply elem_of_nil in Hin.
  - intros Hm' Hinv'. by rewrite signup_invalid.
Qed.

End signup_failure.

(** * The properties on the example database *)

Section examples.
#[local] Existing Instance Example.django.

Example db0_cats :
  map_to_list (Cat_objects Example.db0)
  = [(2%N, Cat.mk "Tom" "Siamese" "loud" 5 Example.ann); (1%N, Example.whiskers)].
Proof. vm_compute. reflexivity. Qed.

Example db0_index_of_bob :
  cat_index Example.get (mkEnv Example.db0 (Some Example.bob))
  = (Response (render "cats/index.html" [("cats", VCats ∅)]), mkEnv Example.db0 (Some Example.bob)).
Proof. vm_compute. reflexivity. Qed.

Example db0_feedings_of_whiskers :
  (λ kf, Feeding.date kf.2) <$> Cat_feedings 1 Example.db0
  = [mkdate 2024 3 5; mkdate 2024 1 1; mkdate 2023 12 31].
Proof. vm_compute. reflexivity. Qed.

Lemma lookup_failure_unhandled_witness :
  (Cat_objects Example.db0 !! 1%N = None
   ∨ ∃ C, Cat_objects Example.db0 !! 1%N = Some C ∧ Cat.user C ≠ Example.bob)
  ∧ cat_detail 1 Example.get (mkEnv Example.db0 (Some Example.bob))
    = (Raise DoesNotExist, mkEnv Example.db0 (Some Example.bob))
  ∧ add_feeding 1 (Example.post {[ "date" := "2024-01-01"; "meal" := "B" ]})
      (mkEnv Example.db0 (Some Example.bob))
    = (Raise DoesNotExist, mkEnv Example.db0 (Some Example.bob)).
Proof.
  assert (Cat_objects Example.db0 !! 1%N = None
          ∨ ∃ C, Cat_objects Example.db0 !! 1%N = Some C ∧ Cat.user C ≠ Example.bob) as Hmiss.
  { right. exists Example.whiskers. split; [vm_compute; reflexivity | vm_compute; discriminate]. }
  split; [exact Hmiss|]. split.
  - exact (proj1 (lookup_failure_unhandled Example.bob 1 Example.get Example.db0 Hmiss)).
  - exact (proj1 (proj2 (lookup_failure_unhandled Example.bob 1
             (Example.post {[ "date" := "2024-01-01"; "meal" := "B" ]})
             Example.db0 Hmiss))).
Defined.

Lemma add_feeding_invalid_is_dropped_witness :
  Cat_objects Example.db0 !! 1%N = Some Example.whiskers
  ∧ Cat.user Example.whiskers = Example.ann
  ∧ is_valid (FeedingForm (Some {[ "date" := "2024-01-01"; "meal" := "X" ]})) = false
  ∧ add_feeding 1 (Example.post {[ "date" := "2024-01-01"; "meal" := "X" ]})
      (mkEnv Example.db0 (Some Example.ann))
    = (Response (redirect "/cats/1/"), mkEnv Example.db0 (Some Example.ann)).
Proof.
  split_and!; [vm_compute; reflexivity..|].
  apply (add_feeding_invalid_is_dropped Example.ann 1 Example.whiskers
           (Example.post {[ "date" := "2024-01-01"; "meal" := "X" ]}) Example.db0);
    vm_compute; reflexivity.
Defined.

Lemma CatUpdate_keeps_name_witness :
  Cat_objects Example.db0 !! 1%N = Some Example.whiskers
  ∧ ∃ C', Cat_objects (db (CatUpdate 1
              (Example.post {[ "name" := "Garfield"; "breed" := "Persian";
                               "description" := "fluffy"; "age" := "3" ]})
              (mkEnv Example.db0 (Some Example.bob))).2) !! 1%N = Some C'
          ∧ Cat.name C' = "Whiskers".
Proof.
  split; [vm_compute; reflexivity|].
  apply (CatUpdate_keeps_name (Some Example.bob) 1 Example.whiskers
           (Example.post {[ "name" := "Garfield"; "breed" := "Persian";
                            "description" := "fluffy"; "age" := "3" ]}) Example.db0).
  vm_compute; reflexivity.
Defined.

Lemma CatCreate_owner_is_session_user_witness :
  let p1 : QueryDict :=
    {[ "name" := "Felix"; "breed" := "Alley"; "description" := "black and white";
       "age" := "4"; "user" := "2" ]} in
  let p2 : QueryDict :=
    {[ "name" := "Felix"; "breed" := "Alley"; "description" := "black and white";
       "age" := "4" ]} in
  let create p := CatCreate (Example.post p) (mkEnv Example.db0 (Some Example.ann)) in
  delete "user" p1 = delete "user" p2
  ∧ Cat_objects (db (create p1).2) !! 3%N
    = Some (Cat.mk "Felix" "Alley" "black and white" 4 Example.ann)
  ∧ (create p1).2 = (create p2).2.
Proof.
  intros p1 p2 create.
  assert (delete "user" p1 = delete "user" p2) as Heq by (vm_compute; reflexivity).
  split; [exact Heq|]. split; [vm_compute; reflexivity|].
  exact (proj1 (proj2 (CatCreate_owner_is_session_user Example.ann Example.db0 "/" p1 p2 Heq))).
Defined.

Lemma CatUpdate_CatDelete_any_user_witness :
  let p : QueryDict :=
    {[ "breed" := "Persian"; "description" := "fluffy"; "age" := "3" ]} in
  Cat.user Example.whiskers ≠ Example.bob
  ∧ Cat_objects Example.db0 !! 1%N = Some Example.whiskers
  ∧ CharField_clean (Some 100%nat) (p !! "breed") = Valid "Persian"
  ∧ CharField_clean (Some 250%nat) (p !! "description") = Valid "fluffy"
  ∧ IntegerField_clean (p !! "age") = Valid 3%Z
  ∧ CatUpdate 1 (Example.post p) (mkEnv Example.db0 (Some Example.bob))
    = (Response (redirect "/cats/1/"),
       mkEnv (set_Cat_objects
                (<[1%N := Cat.mk "Whiskers" "Persian" "fluffy" 3 Example.ann]>
                   (Cat_objects Example.db0))
                (Cat_seq Example.db0) Example.db0) (Some Example.bob))
  ∧ CatDelete 1 (Example.post p) (mkEnv Example.db0 (Some Example.bob))
    = (Response (redirect "/cats/"),
       mkEnv (Cat_delete 1 Example.db0) (Some Example.bob))
  ∧ Cat_objects (db (CatUpdate 1 (Example.post p)
                       (mkEnv Example.db0 (Some Example.bob))).2) !! 1%N
    = Some (Cat.mk "Whiskers" "Persian" "fluffy" 3 Example.ann)
  ∧ Cat_objects (db (CatDelete 1 (Example.post p)
                       (mkEnv Example.db0 (Some Example.bob))).2) !! 1%N
    = None.
Proof.
  intros p.
  assert (Cat_objects Example.db0 !! 1%N = Some Example.whiskers) as Hc
    by (vm_compute; reflexivity).
  assert (CharField_clean (Some 100%nat) (p !! "breed") = Valid "Persian") as Hb
    by (vm_compute; reflexivity).
  assert (CharField_clean (Some 250%nat) (p !! "description") = Valid "fluffy") as Hde
    by (vm_compute; reflexivity).
  assert (IntegerField_clean (p !! "age") = Valid 3%Z) as Ha
    by (vm_compute; reflexivity).
  split; [vm_compute; discriminate|].
  pose proof (CatUpdate_CatDelete_any_user Example.bob 1 Example.whiskers Example.db0
                "/" p "Persian" "fluffy" 3 Hc Hb Hde Ha)
    as (Hupdate & Hdelete & _ & _ & _ & Hrow & _ & Hgone & _).
  split_and!; try assumption.
Defined.

Lemma CatDelete_cascades_to_feedings_witness :
  Cat_objects Example.db0 !! 1%N = Some Example.whiskers
  ∧ size (feedings_of 1 Example.db0) = 3%nat
  ∧ size (Feeding_objects Example.db0)
    = (size (Feeding_objects
               (db (CatDelete 1 (HttpRequest.mk "/" POST ∅)
                      (mkEnv Example.db0 (Some Example.bob))).2))
       + size (feedings_of 1 Example.db0))%nat
  ∧ feedings_of 1
      (db (CatDelete 1 (HttpRequest.mk "/" POST ∅)
             (mkEnv Example.db0 (Some Example.bob))).2) = ∅
  ∧ no_orphans
      (serve_all empty_db
         [(None, url_signup,
           Example.post {[ "username" := "ann"; "password1" := "correct horse";
                           "password2" := "correct horse" ]});
          (Some Example.ann, url_cat_create,
           Example.post {[ "name" := "Whiskers"; "breed" := "Tabby";
                           "description" := "sleeps all day"; "age" := "2" ]});
          (Some Example.ann, url_add_feeding 1,
           Example.post {[ "date" := "2024-01-01"; "meal" := "B" ]});
          (Some Example.ann, url_cat_delete 1, Example.post ∅)]).
Proof.
  assert (Cat_objects Example.db0 !! 1%N = Some Example.whiskers) as Hc
    by (vm_compute; reflexivity).
  pose proof (CatDelete_cascades_to_feedings Example.bob 1 Example.whiskers Example.db0
                "/" ∅
                [(None, url_signup,
                  Example.post {[ "username" := "ann"; "password1" := "correct horse";
                                  "password2" := "correct horse" ]});
                 (Some Example.ann, url_cat_create,
                  Example.post {[ "name" := "Whiskers"; "breed" := "Tabby";
                                  "description" := "sleeps all day"; "age" := "2" ]});
                 (Some Example.ann, url_add_feeding 1,
                  Example.post {[ "date" := "2024-01-01"; "meal" := "B" ]});
                 (Some Example.ann, url_cat_delete 1, Example.post ∅)]
                Hc) as (_ & Hsize & Hnone & _ & Hall & _).
  split; [exact Hc|]. split; [vm_compute; reflexivity|].
  split; [exact Hsize|]. split; [exact Hnone|]. exact Hall.
Defined.

Lemma signup_invalid_generic_error_witness :
  HttpRequest.method
    (Example.post {[ "username" := "carl"; "password1" := "open sesame";
                     "password2" := "open sesamy" ]}) = POST
  ∧ is_valid (UserCreationForm Example.db0
                (Some (HttpRequest.POST
                   (Example.post {[ "username" := "carl"; "password1" := "open sesame";
                                    "password2" := "open sesamy" ]})))) = false
  ∧ signup (Example.post {[ "username" := "carl"; "password1" := "open sesame";
                            "password2" := "open sesamy" ]})
      (mkEnv Example.db0 None)
    = (Response (render "signup.html"
         [("form", VForm false ∅ ∅ []);
          ("error_message", VStr "Invalid sign up - try again")]),
       mkEnv Example.db0 None).
Proof.
  assert (is_valid (UserCreationForm Example.db0
            (Some (HttpRequest.POST
               (Example.post {[ "username" := "carl"; "password1" := "open sesame";
                                "password2" := "open sesamy" ]})))) = false) as Hinv.
  { apply (UserCreationForm_mismatch _ _ "open sesame" "open sesamy");
      vm_compute; (reflexivity || discriminate). }
  split; [reflexivity|]. split; [exact Hinv|].
  exact (proj1 (signup_invalid_generic_error
                  (Example.post {[ "username" := "carl"; "password1" := "open sesame";
                                   "password2" := "open sesamy" ]})
                  (mkEnv Example.db0 None) eq_refl Hinv)).
Defined.

Lemma signup_invalid_form_is_fresh_witness :
  is_valid (UserCreationForm Example.db0
              (Some (HttpRequest.POST
                 (Example.post {[ "username" := "ann"; "password1" := "long enough";
                                  "password2" := "long enough" ]})))) = false
  ∧ is_valid (UserCreationForm Example.db0
                (Some (HttpRequest.POST (Example.post {[ "username" := "dora" ]})))) = false
  ∧ errors (UserCreationForm Example.db0
              (Some (HttpRequest.POST
                 (Example.post {[ "username" := "ann"; "password1" := "long enough";
                                  "password2" := "long enough" ]}))))
    = [("username", "unique")]
  ∧ signup (Example.post {[ "username" := "dora" ]}) (mkEnv Example.db0 None)
    = signup (Example.post {[ "username" := "ann"; "password1" := "long enough";
                              "password2" := "long enough" ]}) (mkEnv Example.db0 None).
Proof.
  assert (is_valid (UserCreationForm Example.db0
            (Some (HttpRequest.POST
               (Example.post {[ "username" := "ann"; "password1" := "long enough";
                                "password2" := "long enough" ]})))) = false) as Hinv
    by (vm_compute; reflexivity).
  assert (is_valid (UserCreationForm Example.db0
            (Some (HttpRequest.POST (Example.post {[ "username" := "dora" ]})))) = false)
    as Hinv' by (vm_compute; reflexivity).
  split; [exact Hinv|]. split; [exact Hinv'|]. split; [vm_compute; reflexivity|].
  destruct (signup_invalid_form_is_fresh
              (Example.post {[ "username" := "ann"; "password1" := "long enough";
                               "password2" := "long enough" ]})
              (Example.post {[ "username" := "dora" ]})
              (mkEnv Example.db0 None) eq_refl Hinv)
    as (context & _ & _ & _ & _ & _ & _ & Hsame).
  exact (Hsame eq_refl Hinv').
Defined.

End examples.

(** * Further properties of the views *)

Ltac unfold_views :=
  unfold urlpatterns, Home, homeTwo, about, cat_index, cat_detail, CatCreate,
         CatCreate_form_valid, CatUpdate, CatDelete, add_feeding, ToyCreate,
         toy_detail, ToyList, signup, User_save, login,
         LoginRequiredMixin, login_required, redirect_to_login.

Ltac match_cases :=
  repeat match goal with
         | |- context [match ?x with _ => _ end] => destruct x eqn:?; try done
         end.

Section single_views.
Context {dj : Django}.

(** X1.  The detail view reads and never writes: for a session user [U]
    the state is the one before the request, the answer has status 200
    exactly when the id is the id of a cat of [U], and it then shows that
    cat with an unbound feeding form whose meal is preset to breakfast. *)
Theorem cat_detail_owner_only (U cat_id : N) (request : HttpRequest.t) (d : DB) :
  (cat_detail cat_id request (mkEnv d (Some U))).2 = mkEnv d (Some U)
  ∧ (status_code (cat_detail cat_id request (mkEnv d (Some U))).1 = 200%Z
     ↔ ∃ C, Cat_objects d !! cat_id = Some C ∧ Cat.user C = U)
  ∧ ∀ C, Cat_objects d !! cat_id = Some C → Cat.user C = U →
      (cat_detail cat_id request (mkEnv d (Some U))).1
      = Response (render "cats/detail.html"
          [("cat", VCat cat_id C);
           ("feeding_form", VForm false {[ "meal" := "B" ]} ∅ [])]).
Proof.
  unfold cat_detail, login_required. cbn [session db]. cbv zeta.
  destruct (Cat_get cat_id U d) as [C|] eqn:Hget.
  - apply Cat_get_Some in Hget as [Hc Hu]. split_and!; [done| |].
    + split; [eauto|done].
    + intros C' HC' _. by simplify_eq.
  - apply Cat_get_None in Hget. split_and!; [done| |].
    + split; [done|]. intros (C & Hc & Hu).
      destruct Hget as [Hn|(C' & Hc' & Hu')]; congruence.
    + intros C Hc Hu. destruct Hget as [Hn|(C' & Hc' & Hu')]; congruence.
Qed.

(** X2.  A submission the feeding form accepts, sent by the owner of the
    cat with any method, is answered by a redirect to the detail page and
    stores one row under the next key, with the cleaned date, a meal code
    of [MEALS] and the cat id of the URL.  The Cat table is untouched, the
    new row is in the listing of the cat, and when the next key is free
    every earlier row is kept and the table has one row more. *)
Theorem add_feeding_valid_saves (U cat_id : N) (C : Cat.t) (request : HttpRequest.t)
    (d : DB) (dt : date) (m : string) :
  Cat_objects d !! cat_id = Some C →
  Cat.user C = U →
  DateField_clean (HttpRequest.POST request !! "date") = Valid dt →
  ChoiceField_clean MEALS (HttpRequest.POST request !! "meal") = Valid m →
  let d' := Feeding_save (Feeding.mk dt m cat_id) d in
  add_feeding cat_id request (mkEnv d (Some U))
  = (Response (redirect (reverse (url_cat_detail cat_id))), mkEnv d' (Some U))
  ∧ m ∈ MEALS.*1
  ∧ Cat_objects d' = Cat_objects d
  ∧ (Feeding_seq d, Feeding.mk dt m cat_id) ∈ Cat_feedings cat_id d'
  ∧ (Feeding_objects d !! Feeding_seq d = None →
     size (Feeding_objects d') = S (size (Feeding_objects d))
     ∧ ∀ k f, Feeding_objects d !! k = Some f → Feeding_objects d' !! k = Some f).
Proof.
  intros Hc Hu Hdate Hmeal d'.
  assert (Cat_get cat_id U d = Some C) as Hget by (by apply Cat_get_Some).
  split_and!.
  - unfold add_feeding, login_required. cbn [session db]. cbv zeta.
    rewrite Hget. unfold FeedingForm. rewrite Hdate, Hmeal. done.
  - unfold ChoiceField_clean in Hmeal. repeat case_decide; by simplify_eq.
  - done.
  - unfold Cat_feedings. rewrite order_by_perm, elem_of_map_to_list.
    unfold feedings_of. rewrite map_lookup_filter_Some. split; [|done].
    unfold d', Feeding_save; simpl. apply lookup_insert_eq.
  - intros Hfree. unfold d', Feeding_save; simpl. split.
    + by apply map_size_insert_None.
    + intros k f Hk. rewrite lookup_insert_ne; [done|]. congruence.
Qed.

(** X3.  Toys have no owner: for a session user the toy page shows the
    toy of that id whoever asks, answers an id that is not in the table
    with an unhandled [DoesNotExist] (status 500), and never changes the
    state. *)
Theorem toy_detail_shared (U U' pk : N) (request : HttpRequest.t) (d : DB) :
  (toy_detail pk request (mkEnv d (Some U))).2 = mkEnv d (Some U)
  ∧ (toy_detail pk request (mkEnv d (Some U))).1
    = (toy_detail pk request (mkEnv d (Some U'))).1
  ∧ (toy_detail pk request (mkEnv d (Some U))).1
    = match Toy_objects d !! pk with
      | Some toy => Response (render "main_app/toy_detail.html" [("toy", VToy pk toy)])
      | None => Raise DoesNotExist
      end
  ∧ (status_code (toy_detail pk request (mkEnv d (Some U))).1 = 500%Z
     ↔ Toy_objects d !! pk = None).
Proof.
  unfold toy_detail, login_required. cbn [session db].
  destruct (Toy_objects d !! pk); done.
Qed.

(** X4.  Without a user in the session, every view that requires a login
    answers with a redirect to the login page whose [next] field is the
    full path of the request, query string included, url-encoded, and
    leaves the state alone; and whatever the URL, such a request changes
    no cat, no feeding, no toy and no toy association. *)
Theorem anonymous_request (u : URL) (request : HttpRequest.t) (d : DB) :
  (login_protected u = true →
   urlpatterns u request (mkEnv d None)
   = (Response (redirect (LOGIN_URL +:+ "?next="
                          +:+ quote "/" (HttpRequest.full_path request))),
      mkEnv d None))
  ∧ Cat_objects (db (urlpatterns u request (mkEnv d None)).2) = Cat_objects d
  ∧ Feeding_objects (db (urlpatterns u request (mkEnv d None)).2) = Feeding_objects d
  ∧ Toy_objects (db (urlpatterns u request (mkEnv d None)).2) = Toy_objects d
  ∧ Cat_toys (db (urlpatterns u request (mkEnv d None)).2) = Cat_toys d.
Proof.
  destruct u; unfold_views; cbn [session db]; cbv zeta; try done.
  all: split; [done|]; match_cases.
Qed.

(** X5.  A GET request, which carries no form data, changes nothing:
    whatever the URL and the session, the database and the session are
    the ones before the request.  The add-feeding view does not look at
    the method; it is the empty data that the form rejects. *)
Theorem get_changes_nothing (u : URL) (request : HttpRequest.t) (env : Env) :
  HttpRequest.method request = GET →
  HttpRequest.POST request = ∅ →
  (urlpatterns u request env).2 = env.
Proof.
  intros Hm Hp. destruct env as [d [user|]]; destruct u; unfold_views;
    cbn [session db]; cbv zeta; rewrite ?Hm, ?Hp; try done.
  all: match_cases.
Qed.

(** X6.  Only the login page and the signup page touch the session: after
    a request to any other URL the session has the user it had. *)
Theorem session_kept (u : URL) (request : HttpRequest.t) (env : Env) :
  u ≠ url_home → u ≠ url_signup →
  session (urlpatterns u request env).2 = session env.
Proof.
  intros Hh Hs. destruct env as [d [user|]]; destruct u; unfold_views;
    cbn [session db]; cbv zeta; try done.
  all: match_cases.
Qed.

End single_views.

Section round_trips.
Context {dj : Django}.

Lemma feedings_of_Cat_delete (pk k : N) (d : DB) :
  k ≠ pk → feedings_of k (Cat_delete pk d) = feedings_of k d.
Proof.
  intros Hne. unfold feedings_of, Cat_delete; simpl.
  apply map_eq. intros i. apply option_eq. intros f.
  rewrite !map_lookup_filter_Some. simpl. split.
  - by intros [[? ?] ?].
  - intros [? ?]. split_and!; [done| |done]. congruence.
Qed.

(** X7.  A valid create form, sent by [U], redirects to the detail page
    of the new cat, and that page then shows the cat as it was cleaned,
    with [U] as its owner, to [U]; the cat is in the list of [U]; for any
    other user the same page fails with [DoesNotExist] and the cat is not
    in the list. *)
Theorem CatCreate_then_detail (U U' : N) (d : DB) (path : string) (p : QueryDict)
    (request : HttpRequest.t) (n b de : string) (a : Z) :
  cleaned_data (CatCreate_form (Some p)) = Some (n, b, de, a) →
  let created := CatCreate (HttpRequest.mk path POST p) (mkEnv d (Some U)) in
  let id := Cat_seq d in
  let C := Cat.mk n b de a U in
  created.1 = Response (redirect (reverse (url_cat_detail id)))
  ∧ cat_detail id request created.2
    = (Response (render "cats/detail.html"
         [("cat", VCat id C); ("feeding_form", as_value (FeedingForm None))]), created.2)
  ∧ (cat_index request created.2).1
    = Response (render "cats/index.html" [("cats", VCats (Cat_filter_user U (db created.2)))])
  ∧ Cat_filter_user U (db created.2) !! id = Some C
  ∧ (U' ≠ U →
     (cat_detail id request (mkEnv (db created.2) (Some U'))).1 = Raise DoesNotExist
     ∧ Cat_filter_user U' (db created.2) !! id = None).
Proof.
  intros Hcd created id C.
  pose proof (CatCreate_post U d path p) as Hpost. rewrite Hcd in Hpost.
  unfold created. rewrite Hpost. cbn [fst snd db]. subst id C.
  set (C := Cat.mk n b de a U).
  set (d1 := set_Cat_objects (<[Cat_seq d := C]> (Cat_objects d)) (N.succ (Cat_seq d)) d).
  assert (Cat_objects d1 !! Cat_seq d = Some C) as Hnew by (simpl; apply lookup_insert_eq).
  assert (Cat_get (Cat_seq d) U d1 = Some C) as Hget by (by apply Cat_get_Some).
  split_and!.
  - done.
  - unfold cat_detail, login_required. cbn [session db]. cbv zeta. by rewrite Hget.
  - done.
  - by apply Cat_filter_user_lookup.
  - intros Hne.
    assert (Cat_get (Cat_seq d) U' d1 = None) as Hget'.
    { apply Cat_get_None. right. exists C. split; [done|]. simpl. congruence. }
    split.
    + unfold cat_detail, login_required. cbn [session db]. cbv zeta. by rewrite Hget'.
    + apply eq_None_not_Some. intros [C' HC'].
      apply Cat_filter_user_lookup in HC' as [HC' Hu]. rewrite Hnew in HC'.
      by simplify_eq.
Qed.

(** X8.  Deleting the cat [pk] leaves every other cat with its row and
    its feedings, leaves users and toys alone, and detaches the cat from
    its toys and from nothing else.  Afterwards the id is gone for every
    user: the detail and add-feeding views fail with [DoesNotExist], the
    update and delete views with [Http404]. *)
Theorem CatDelete_frame (U pk : N) (C : Cat.t) (d : DB) (path : string) (p : QueryDict) :
  Cat_objects d !! pk = Some C →
  let d' := db (CatDelete pk (HttpRequest.mk path POST p) (mkEnv d (Some U))).2 in
  (∀ k, k ≠ pk →
     Cat_objects d' !! k = Cat_objects d !! k ∧ feedings_of k d' = feedings_of k d)
  ∧ User_objects d' = User_objects d
  ∧ Toy_objects d' = Toy_objects d
  ∧ (∀ c t, (c, t) ∈ Cat_toys d' ↔ (c, t) ∈ Cat_toys d ∧ c ≠ pk)
  ∧ ∀ U' request,
      cat_detail pk request (mkEnv d' (Some U')) = (Raise DoesNotExist, mkEnv d' (Some U'))
      ∧ add_feeding pk request (mkEnv d' (Some U'))
        = (Raise DoesNotExist, mkEnv d' (Some U'))
      ∧ CatUpdate pk request (mkEnv d' (Some U')) = (Raise Http404, mkEnv d' (Some U'))
      ∧ CatDelete pk request (mkEnv d' (Some U')) = (Raise Http404, mkEnv d' (Some U')).
Proof.
  intros Hc d'.
  assert (d' = Cat_delete pk d) as ->.
  { unfold d', CatDelete, LoginRequiredMixin, login_required.
    cbn [session db HttpRequest.method]. by rewrite Hc. }
  assert (Cat_objects (Cat_delete pk d) !! pk = None) as Hgone
    by (unfold Cat_delete; cbn [Cat_objects]; apply lookup_delete_eq).
  split_and!.
  - intros k Hne. split; [|by apply feedings_of_Cat_delete].
    unfold Cat_delete; cbn [Cat_objects]. by apply lookup_delete_ne.
  - done.
  - done.
  - intros c t. unfold Cat_delete; cbn [Cat_toys]. rewrite elem_of_filter.
    split; intros [? ?]; done.
  - intros U' request.
    unfold cat_detail, add_feeding, CatUpdate, CatDelete, LoginRequiredMixin, login_required.
    cbn [session db]. cbv zeta.
    rewrite (proj2 (Cat_get_None pk U' _) (or_introl Hgone)), Hgone. done.
Qed.

(** X9.  Whatever the request to the update view of [pk] and whoever
    sends it, feedings, users, toys, toy associations and the key
    sequence are untouched, every other cat keeps its row, and the cat
    [pk] keeps its owner; and when no cat has the id, a logged-in request
    is answered by [Http404] (status 404) without any change. *)
Theorem CatUpdate_frame (who : option N) (pk : N) (request : HttpRequest.t) (d : DB) :
  let d' := db (CatUpdate pk request (mkEnv d who)).2 in
  Feeding_objects d' = Feeding_objects d
  ∧ User_objects d' = User_objects d
  ∧ Toy_objects d' = Toy_objects d
  ∧ Cat_toys d' = Cat_toys d
  ∧ Cat_seq d' = Cat_seq d
  ∧ (∀ k, k ≠ pk → Cat_objects d' !! k = Cat_objects d !! k)
  ∧ Cat.user <$> Cat_objects d' !! pk = Cat.user <$> Cat_objects d !! pk
  ∧ (Cat_objects d !! pk = None →
     ∀ U, CatUpdate pk request (mkEnv d (Some U)) = (Raise Http404, mkEnv d (Some U))
          ∧ status_code (CatUpdate pk request (mkEnv d (Some U))).1 = 404%Z).
Proof.
  intros d'. unfold d', CatUpdate, LoginRequiredMixin, login_required.
  cbn [session db]. cbv zeta.
  destruct (Cat_objects d !! pk) as [C|] eqn:Hc.
  - destruct who as [u|]; [|cbn [snd db]; by rewrite Hc].
    cbv beta iota. destruct (HttpRequest.method request); [cbn [snd db]; by rewrite Hc|].
    destruct (is_valid (CatUpdate_form C _)); [|cbn [snd db]; by rewrite Hc].
    destruct (cleaned_data (CatUpdate_form C _)) as [[[b de] a]|];
      [|cbn [snd db]; by rewrite Hc].
    cbn. split_and!; try done.
    + intros k Hne. by rewrite lookup_insert_ne.
    + by rewrite lookup_insert_eq.
  - destruct who as [u|]; rewrite ?Hc; cbn [snd db]; by rewrite ?Hc.
Qed.

(** X10.  The age is required: a create or update submission without an
    age, or with an empty one, is not saved; the create form then carries
    the error [required] for the field. *)
Theorem age_is_required (U pk : N) (C : Cat.t) (d : DB) (path : string) (p : QueryDict) :
  p !! "age" = None ∨ p !! "age" = Some "" →
  (CatCreate (HttpRequest.mk path POST p) (mkEnv d (Some U))).2 = mkEnv d (Some U)
  ∧ ("age", "required") ∈ errors (CatCreate_form (Some p))
  ∧ (Cat_objects d !! pk = Some C →
     (CatUpdate pk (HttpRequest.mk path POST p) (mkEnv d (Some U))).2 = mkEnv d (Some U)).
Proof.
  intros Hage.
  assert (IntegerField_clean (p !! "age") = ValidationError "required") as Hreq.
  { unfold IntegerField_clean. by destruct Hage as [-> | ->]. }
  split_and!.
  - unfold CatCreate, LoginRequiredMixin, login_required, CatCreate_form_valid, CatCreate_form.
    cbn [session db HttpRequest.method HttpRequest.POST]. cbv zeta. rewrite Hreq.
    destruct (CharField_clean (Some 100%nat) (p !! "name")),
             (CharField_clean (Some 100%nat) (p !! "breed")),
             (CharField_clean (Some 250%nat) (p !! "description")); done.
  - unfold CatCreate_form. rewrite Hreq. cbn [errors bound].
    rewrite !elem_of_app. right. right. right. simpl. apply list_elem_of_singleton. done.
  - intros Hc.
    unfold CatUpdate, LoginRequiredMixin, login_required, CatUpdate_form.
    cbn [session db HttpRequest.method HttpRequest.POST]. cbv zeta. rewrite Hc, Hreq.
    destruct (CharField_clean (Some 100%nat) (p !! "breed")),
             (CharField_clean (Some 250%nat) (p !! "description")); done.
Qed.

(** X11.  A valid toy form redirects to the page of the new toy, and that
    page then shows the toy, with the cleaned name and colour, to every
    logged-in user. *)
Theorem ToyCreate_then_detail (U U' : N) (d : DB) (path : string) (p : QueryDict)
    (request : HttpRequest.t) (n c : string) :
  CharField_clean (Some 50%nat) (p !! "name") = Valid n →
  CharField_clean (Some 20%nat) (p !! "color") = Valid c →
  let created := ToyCreate (HttpRequest.mk path POST p) (mkEnv d (Some U)) in
  created.1 = Response (redirect (reverse (url_toy_detail (Toy_seq d))))
  ∧ Cat_objects (db created.2) = Cat_objects d
  ∧ (toy_detail (Toy_seq d) request (mkEnv (db created.2) (Some U'))).1
    = Response (render "main_app/toy_detail.html"
        [("toy", VToy (Toy_seq d) (Toy.mk n c))]).
Proof.
  intros Hn Hc created.
  unfold created, ToyCreate, toy_detail, LoginRequiredMixin, login_required, ToyCreate_form.
  cbn [session db HttpRequest.method HttpRequest.POST]. cbv zeta.
  rewrite Hn, Hc. cbn. by rewrite lookup_insert_eq.
Qed.

(** X12.  The two toy views that no URL reaches: a POST to [ToyDelete]
    by any logged-in user removes the toy, takes it out of the toys of
    every cat and touches no cat or feeding, and redirects to the toy
    list; a POST to [ToyUpdate] with a valid name and colour replaces
    both and redirects to the page of the toy. *)
Theorem ToyUpdate_ToyDelete_post (U pk : N) (x : Toy.t) (d : DB) (path : string)
    (p : QueryDict) (n c : string) :
  Toy_objects d !! pk = Some x →
  CharField_clean (Some 50%nat) (p !! "name") = Valid n →
  CharField_clean (Some 20%nat) (p !! "color") = Valid c →
  let request := HttpRequest.mk path POST p in
  let d' := db (ToyDelete pk request (mkEnv d (Some U))).2 in
  (ToyDelete pk request (mkEnv d (Some U))).1 = Response (redirect (reverse url_toy_index))
  ∧ Toy_objects d' !! pk = None
  ∧ (∀ k, k ≠ pk → Toy_objects d' !! k = Toy_objects d !! k)
  ∧ (∀ cat t, (cat, t) ∈ Cat_toys d' ↔ (cat, t) ∈ Cat_toys d ∧ t ≠ pk)
  ∧ Cat_objects d' = Cat_objects d
  ∧ Feeding_objects d' = Feeding_objects d
  ∧ (ToyUpdate pk request (mkEnv d (Some U))).1
    = Response (redirect (reverse (url_toy_detail pk)))
  ∧ Toy_objects (db (ToyUpdate pk request (mkEnv d (Some U))).2) !! pk = Some (Toy.mk n c)
  ∧ ∀ k, k ≠ pk →
      Toy_objects (db (ToyUpdate pk request (mkEnv d (Some U))).2) !! k = Toy_objects d !! k.
Proof.
  intros Hx Hn Hc request d'.
  unfold d', request, ToyDelete, ToyUpdate, LoginRequiredMixin, login_required, ToyUpdate_form.
  cbn [session db HttpRequest.method HttpRequest.POST]. cbv zeta.
  rewrite Hx, Hn, Hc. cbn. split_and!; try done.
  - apply lookup_delete_eq.
  - intros k Hne. by apply lookup_delete_ne.
  - intros cat t. rewrite elem_of_filter. split; intros [? ?]; done.
  - apply lookup_insert_eq.
  - intros k Hne. by apply lookup_insert_ne.
Qed.

End round_trips.

Section sequences.
Context {dj : Django}.

Lemma serve_all_app (d : DB) (rs rs' : list (option N * URL * HttpRequest.t)) :
  serve_all d (rs ++ rs') = serve_all (serve_all d rs) rs'.
Proof. unfold serve_all. apply foldl_app. Qed.

(** A property of the database that holds at the start and that every
    request keeps under fresh keys holds after any sequence of requests. *)
Lemma serve_all_ind (P : DB → Prop) (d : DB)
    (rs : list (option N * URL * HttpRequest.t)) :
  (∀ d r, fresh_keys d → P d → P (serve d r)) →
  fresh_keys d → P d → P (serve_all d rs).
Proof.
  intros Hstep. unfold serve_all. revert d.
  induction rs as [|r rs IH]; intros d Hf Hd; simpl; [done|].
  apply IH; [by apply serve_fresh_keys | by apply Hstep].
Qed.

Lemma get_user_Some (who : option N) (d : DB) (u : N) :
  get_user who d = Some u → is_Some (User_objects d !! u).
Proof.
  unfold get_user. destruct who as [w|]; [|done].
  case_decide; [|done]. by intros [= <-].
Qed.

Lemma bound_cleaned_data {A} (init post : QueryDict) (errs : list (string * string))
    (cd : option A) (x : A) :
  cleaned_data (bound init post errs cd) = Some x →
  errs = [] ∧ cd = Some x ∧ is_valid (bound init post errs cd) = true.
Proof. unfold bound, is_valid; simpl. destruct errs; [|done]. by intros ->. Qed.

Lemma FeedingForm_cleaned_data (post : QueryDict) (dt : date) (m : string) :
  cleaned_data (FeedingForm (Some post)) = Some (dt, m) → m ∈ MEALS.*1.
Proof.
  unfold FeedingForm. intros (_ & Hcd & _)%bound_cleaned_data.
  destruct (DateField_clean (post !! "date")); [|done].
  unfold ChoiceField_clean in Hcd. repeat case_decide; by simplify_eq.
Qed.

Lemma serve_cat_kept (k : N) (c : Cat.t) (d : DB) (r : option N * URL * HttpRequest.t) :
  fresh_keys d → cat_kept k c d → cat_kept k c (serve d r).
Proof.
  intros (_ & Hfc & _) [Hlt Hk]. destruct r as [[who u] request]. unfold serve.
  destruct (get_user who d) as [user|]; destruct u; unfold_views;
    cbn [session db]; cbv zeta; try done.
  all: match_cases; unfold cat_kept; cbn [snd db Cat_objects Cat_seq set_Cat_objects
         set_User_objects set_Toy_objects set_Feeding_objects Feeding_save Cat_delete];
       try done.
  - split; [lia|]. rewrite lookup_insert_ne by lia. done.
  - split; [done|]. rewrite lookup_insert. case_decide; [|done].
    subst. simpl. match goal with Hg : Cat_objects d !! _ = Some _ |- _ =>
      rewrite Hg in Hk end. done.
  - split; [done|]. rewrite lookup_delete. by case_decide.
Qed.

(** X13.  Once a cat is in the table, no sequence of requests changes its
    owner or its name: as long as a row has its id, the row has the owner
    and the name the cat was created with.  Keys are not used again, so
    this row is the same cat. *)
Theorem cat_owner_and_name_for_life (rs rs' : list (option N * URL * HttpRequest.t))
    (k : N) (c c' : Cat.t) :
  Cat_objects (serve_all empty_db rs) !! k = Some c →
  Cat_objects (serve_all empty_db (rs ++ rs')) !! k = Some c' →
  Cat.user c' = Cat.user c ∧ Cat.name c' = Cat.name c.
Proof.
  intros Hc Hc'. rewrite serve_all_app in Hc'.
  pose proof (serve_all_fresh_keys rs) as Hf.
  assert (cat_kept k c (serve_all empty_db rs)) as Hk.
  { split; [|by rewrite Hc]. destruct Hf as (_ & Hfc & _). apply Hfc. by rewrite Hc. }
  pose proof (serve_all_ind (cat_kept k c) _ rs' (serve_cat_kept k c) Hf Hk) as [_ Hend].
  by rewrite Hc' in Hend.
Qed.

Lemma serve_feeding_kept (k : N) (f : Feeding.t) (d : DB)
    (r : option N * URL * HttpRequest.t) :
  fresh_keys d → Feeding_objects d !! k = Some f →
  Feeding_objects (serve d r) !! k = Some f
  ∨ (Feeding_objects (serve d r) !! k = None
     ∧ Cat_objects (serve d r) !! Feeding.cat f = None).
Proof.
  intros (_ & _ & Hff & _) Hk. destruct r as [[who u] request]. unfold serve.
  assert (k < Feeding_seq d)%N as Hlt by (apply Hff; by rewrite Hk).
  destruct (get_user who d) as [user|]; destruct u; unfold_views;
    cbn [session db]; cbv zeta; try (by left).
  all: match_cases; cbn [snd db Cat_objects Feeding_objects set_Cat_objects
         set_User_objects set_Toy_objects set_Feeding_objects Feeding_save Cat_delete];
       try (by left).
  - destruct (decide (Feeding.cat f = pk)) as [Heq|Hne].
    + right. split; [|rewrite Heq; apply lookup_delete_eq].
      apply map_lookup_filter_None. right. intros f' Hf'. simplify_eq. simpl.
      intros Hne. by apply Hne.
    + left. by apply map_lookup_filter_Some.
  - left. rewrite lookup_insert_ne by lia. done.
Qed.

(** X14.  No request rewrites a feeding: after any request a feeding
    that was in the table is there unchanged, or it is gone together with
    its cat. *)
Theorem feeding_rows_never_change (rs : list (option N * URL * HttpRequest.t))
    (r : option N * URL * HttpRequest.t) (k : N) (f : Feeding.t) :
  Feeding_objects (serve_all empty_db rs) !! k = Some f →
  Feeding_objects (serve (serve_all empty_db rs) r) !! k = Some f
  ∨ (Feeding_objects (serve (serve_all empty_db rs) r) !! k = None
     ∧ Cat_objects (serve (serve_all empty_db rs) r) !! Feeding.cat f = None).
Proof. apply serve_feeding_kept, serve_all_fresh_keys. Qed.

Lemma serve_toy_user_kept (d : DB) (r : option N * URL * HttpRequest.t) :
  fresh_keys d →
  (∀ k x, Toy_objects d !! k = Some x → Toy_objects (serve d r) !! k = Some x)
  ∧ (∀ k x, User_objects d !! k = Some x → User_objects (serve d r) !! k = Some x).
Proof.
  intros (Hfu & _ & _ & Hft). destruct r as [[who u] request]. unfold serve.
  destruct (get_user who d) as [user|]; destruct u; unfold_views;
    cbn [session db]; cbv zeta; try done.
  all: match_cases; cbn [snd db Toy_objects User_objects set_Cat_objects
         set_User_objects set_Toy_objects set_Feeding_objects Feeding_save Cat_delete];
       try done.
  all: split; [try done|try done]; intros k x Hk.
  all: rewrite lookup_insert_ne; [done|].
  all: intros <-.
  all: first [ specialize (Hft (Toy_seq d)); rewrite Hk in Hft
             | specialize (Hfu (User_seq d)); rewrite Hk in Hfu ].
  all: match goal with Hx : is_Some _ → _ |- _ => specialize (Hx (mk_is_Some _ _ eq_refl)) end; lia.
Qed.

(** X15.  Toys and users are only ever added: a toy that is in the
    table after some requests is there, unchanged, after any further
    requests, since no URL leads to the update or the deletion of a toy;
    and a user that is in the table stays in it with the same username
    and the same password. *)
Theorem toys_and_users_only_grow (rs rs' : list (option N * URL * HttpRequest.t)) (k : N) :
  (∀ x, Toy_objects (serve_all empty_db rs) !! k = Some x →
        Toy_objects (serve_all empty_db (rs ++ rs')) !! k = Some x)
  ∧ (∀ x, User_objects (serve_all empty_db rs) !! k = Some x →
          ∃ x', User_objects (serve_all empty_db (rs ++ rs')) !! k = Some x'
                ∧ User.username x' = User.username x
                ∧ User.password x' = User.password x).
Proof.
  rewrite serve_all_app.
  pose proof (serve_all_fresh_keys rs) as Hf.
  split; intros x Hx.
  - apply (serve_all_ind (λ d, Toy_objects d !! k = Some x)); [|done..].
    intros d r Hfd. by apply serve_toy_user_kept.
  - exists x. split; [|done].
    apply (serve_all_ind (λ d, User_objects d !! k = Some x)); [|done..].
    intros d r Hfd. by apply serve_toy_user_kept.
Qed.

Lemma serve_Cat_toys (d : DB) (r : option N * URL * HttpRequest.t) :
  Cat_toys (serve d r) ⊆ Cat_toys d.
Proof.
  destruct r as [[who u] request]. unfold serve.
  destruct (get_user who d) as [user|]; destruct u; unfold_views;
    cbn [session db]; cbv zeta; try done.
  all: match_cases; cbn [snd db Cat_toys set_Cat_objects
         set_User_objects set_Toy_objects set_Feeding_objects Feeding_save Cat_delete];
       try done.
  intros ct. rewrite elem_of_filter. tauto.
Qed.

(** X16.  No view ever gives a toy to a cat: a request can only take rows
    out of the many-to-many table, and after any sequence of requests
    from the empty database the table is empty. *)
Theorem Cat_toys_never_filled (d : DB) (r : option N * URL * HttpRequest.t)
    (rs : list (option N * URL * HttpRequest.t)) :
  Cat_toys (serve d r) ⊆ Cat_toys d
  ∧ Cat_toys (serve_all empty_db rs) = ∅.
Proof.
  split; [apply serve_Cat_toys|].
  apply (serve_all_ind (λ d, Cat_toys d = ∅)); [|apply fresh_keys_empty|done].
  intros d' r' _ Hd'. pose proof (serve_Cat_toys d' r') as Hsub.
  rewrite Hd' in Hsub. set_solver.
Qed.

End sequences.

Section reachable.
Context {dj : Django}.

Lemma serve_meals_valid (d : DB) (r : option N * URL * HttpRequest.t) :
  meals_valid d → meals_valid (serve d r).
Proof.
  intros Hd. destruct r as [[who u] request]. unfold serve.
  destruct (get_user who d) as [user|]; destruct u; unfold_views;
    cbn [session db]; cbv zeta; try done.
  all: match_cases; unfold meals_valid;
       cbn [snd db Feeding_objects set_Cat_objects
         set_User_objects set_Toy_objects set_Feeding_objects Feeding_save Cat_delete];
       try done.
  - intros k f [Hf _]%map_lookup_filter_Some. by apply (Hd k).
  - apply map_Forall_insert_2; [|done]. simpl.
    by eapply FeedingForm_cleaned_data.
Qed.

(** X17.  Every feeding that any sequence of requests has stored carries
    one of the three meal codes, so that its display is the name of a
    meal and never the bare code. *)
Theorem stored_meals_are_choices (rs : list (option N * URL * HttpRequest.t))
    (k : N) (f : Feeding.t) :
  Feeding_objects (serve_all empty_db rs) !! k = Some f →
  Feeding.meal f ∈ ["B"; "L"; "D"]
  ∧ Feeding.get_meal_display f ∈ ["Breakfast"; "Lunch"; "Dinner"].
Proof.
  intros Hf.
  assert (meals_valid (serve_all empty_db rs)) as Hall.
  { apply (serve_all_ind meals_valid); [|apply fresh_keys_empty|apply map_Forall_empty].
    intros d r _. apply serve_meals_valid. }
  specialize (Hall k f Hf). simpl in Hall. split; [done|].
  destruct f as [dt m c]. simpl in Hall.
  rewrite !elem_of_cons, elem_of_nil in Hall.
  destruct Hall as [->|[->|[->|[]]]].
  - replace (Feeding.get_meal_display _) with "Breakfast" by reflexivity.
    rewrite !elem_of_cons; auto.
  - replace (Feeding.get_meal_display _) with "Lunch" by reflexivity.
    rewrite !elem_of_cons; auto.
  - replace (Feeding.get_meal_display _) with "Dinner" by reflexivity.
    rewrite !elem_of_cons; auto.
Qed.

Lemma serve_owners_known (d : DB) (r : option N * URL * HttpRequest.t) :
  owners_known d → owners_known (serve d r).
Proof.
  intros Hd. destruct r as [[who u] request]. unfold serve.
  destruct (get_user who d) as [user|] eqn:Hwho; destruct u; unfold_views;
    cbn [session db]; cbv zeta; try done.
  all: match_cases; unfold owners_known;
       cbn [snd db Cat_objects User_objects set_Cat_objects
         set_User_objects set_Toy_objects set_Feeding_objects Feeding_save Cat_delete];
       try done.
  all: try (eapply map_Forall_impl; [exact Hd|]; intros i c Hc; simpl;
            apply lookup_insert_is_Some'; by right).
  - apply map_Forall_insert_2; [|done]. simpl. by eapply get_user_Some.
  - apply map_Forall_insert_2; [|done]. simpl.
    match goal with Hg : Cat_objects d !! _ = Some _ |- _ => exact (Hd _ _ Hg) end.
  - by apply map_Forall_delete.
Qed.

Lemma serve_all_owners_known (rs : list (option N * URL * HttpRequest.t)) :
  owners_known (serve_all empty_db rs).
Proof.
  apply (serve_all_ind owners_known); [|apply fresh_keys_empty|apply map_Forall_empty].
  intros d r _. apply serve_owners_known.
Qed.

(** X18.  After any sequence of requests every cat belongs to a user of
    the User table: cats are created for the user of the session, the
    update view keeps the owner, and no view deletes a user. *)
Theorem every_cat_has_an_owner (rs : list (option N * URL * HttpRequest.t))
    (k : N) (c : Cat.t) :
  Cat_objects (serve_all empty_db rs) !! k = Some c →
  is_Some (User_objects (serve_all empty_db rs) !! Cat.user c).
Proof. intros Hc. exact (serve_all_owners_known rs k c Hc). Qed.

Lemma username_taken_false (username : string) (d : DB) :
  username_taken username d = false →
  ∀ k u, User_objects d !! k = Some u →
         User.username u ≠ username ∧ iexact (User.username u) username = false.
Proof.
  unfold username_taken. intros Hfree k u Hk.
  destruct (iexact (User.username u) username
            || bool_decide (User.username u = username)) eqn:Hrow.
  - assert (existsb (λ ku : N * User.t,
                       iexact (User.username ku.2) username
                       || bool_decide (User.username ku.2 = username))
                    (map_to_list (User_objects d)) = true) as Hex; [|congruence].
    apply existsb_exists. exists (k, u). split; [|exact Hrow].
    apply list_elem_of_In. by apply elem_of_map_to_list.
  - apply orb_false_iff in Hrow as [Hi He]. split; [|done].
    by apply bool_decide_eq_false in He.
Qed.

Lemma UserCreationForm_cleaned_data (d : DB) (post : QueryDict) (username password : string) :
  cleaned_data (UserCreationForm d (Some post)) = Some (username, password) →
  is_valid (UserCreationForm d (Some post)) = true
  ∧ username = normalize (strip (default "" (post !! "username")))
  ∧ username_taken username d = false
  ∧ post !! "password1" = Some password
  ∧ post !! "password2" = Some password.
Proof.
  unfold UserCreationForm. intros (_ & Hcd & Hvalid)%bound_cleaned_data.
  split; [exact Hvalid|]. clear Hvalid. revert Hcd.
  unfold PasswordField_clean.
  assert (∀ u, UsernameField_clean (post !! "username") = Valid u →
               u = normalize (strip (default "" (post !! "username")))) as Hnorm.
  { intros u. unfold UsernameField_clean, null_characters.
    destruct (decide (len (strip (default "" (post !! "username"))) ≤ 150)%nat);
      repeat case_decide; try done;
      match goal with |- context [in_string zero ?v] => destruct (in_string zero v) end;
      try done; congruence. }
  destruct (UsernameField_clean (post !! "username")) as [u|]; [|done].
  specialize (Hnorm u eq_refl).
  destruct (negb (username_validator u)); [done|].
  destruct (username_taken u d) eqn:Hfree; [done|].
  unfold null_characters.
  destruct (post !! "password1") as [p1|]; simpl default; [|done].
  destruct (decide (p1 = "")); [done|].
  destruct (in_string zero p1); [done|].
  destruct (post !! "password2") as [p2|]; simpl default; [|done].
  destruct (decide (p2 = "")); [done|].
  destruct (in_string zero p2); [done|].
  destruct (decide (p1 = p2)) as [<-|Hne].
  - rewrite bool_decide_eq_false_2 by (by intros ?).
    destruct (validate_password p1 (Some u)); [|done].
    intros [= <- <-]. done.
  - by rewrite bool_decide_eq_true_2.
Qed.

(** X19.  A signup POST the form accepts, in a database reached from the
    empty one, redirects to the cat list and logs the session in as a new
    user, whose row is under a key that was free and holds the submitted
    username, stripped and normalized, which no user had even up to case,
    and the hash of the password that both password fields gave.  Cats,
    feedings and toys are untouched, and the cat list of the new user is
    empty. *)
Theorem signup_valid_creates_user (rs : list (option N * URL * HttpRequest.t))
    (who : option N) (request : HttpRequest.t) (username password : string) :
  HttpRequest.method request = POST →
  cleaned_data (UserCreationForm (serve_all empty_db rs) (Some (HttpRequest.POST request)))
  = Some (username, password) →
  let d := serve_all empty_db rs in
  let id := User_seq d in
  let after := signup request (mkEnv d who) in
  after.1 = Response (redirect (reverse url_cat_index))
  ∧ session after.2 = Some id
  ∧ User_objects d !! id = None
  ∧ (∃ row, User_objects (db after.2) !! id = Some row
            ∧ User.username row = username
            ∧ User.password row = make_password password)
  ∧ username = normalize (strip (default "" (HttpRequest.POST request !! "username")))
  ∧ (∀ k u, User_objects d !! k = Some u →
            User.username u ≠ username ∧ iexact (User.username u) username = false)
  ∧ HttpRequest.POST request !! "password1" = Some password
  ∧ HttpRequest.POST request !! "password2" = Some password
  ∧ Cat_objects (db after.2) = Cat_objects d
  ∧ Feeding_objects (db after.2) = Feeding_objects d
  ∧ Toy_objects (db after.2) = Toy_objects d
  ∧ ∀ request',
      (cat_index request' after.2).1
      = Response (render "cats/index.html" [("cats", VCats ∅)]).
Proof.
  intros Hm Hcd d id after.
  destruct (UserCreationForm_cleaned_data _ _ _ _ Hcd)
    as (Hvalid & Hname & Hfree & Hp1 & Hp2).
  pose proof (serve_all_fresh_keys rs) as (Hfu & _).
  assert (User_objects d !! id = None) as Hnew.
  { apply eq_None_not_Some. intros Hid%Hfu. unfold id, d in Hid. lia. }
  assert (after
          = (Response (redirect (reverse url_cat_index)),
             mkEnv (set_User_objects
                      (<[id := User.mk username (make_password password)]> (User_objects d))
                      (N.succ id) d) (Some id))) as ->.
  { unfold after, id, d, signup, User_save, login. cbv zeta. cbn [db session].
    by rewrite Hm, Hvalid, Hcd. }
  cbn [fst snd db session]. split_and!; try done.
  - eexists. split; [apply lookup_insert_eq|done].
  - by apply username_taken_false.
  - intros request'. unfold cat_index, login_required. cbn [session db fst]. cbv zeta.
    match goal with |- context [Cat_filter_user ?i ?x] =>
      assert (Cat_filter_user i x = ∅) as ->; [|done] end.
    apply map_eq. intros k. rewrite lookup_empty. apply eq_None_not_Some.
    intros [c [Hc Hu]%Cat_filter_user_lookup].
    pose proof (serve_all_owners_known rs k c Hc) as Howner.
    cbv beta in Howner. fold d in Howner. rewrite Hu, Hnew in Howner.
    by destruct Howner.
Qed.

End reachable.

Section requester.
Context {dj : Django}.

(** X20.  What a request adds, it adds for the user who sent it: a row
    that appears in the Cat table is owned by the user of the session,
    and a row that appears in the Feeding table is a feeding of a cat of
    that user. *)
Theorem new_rows_belong_to_requester (d : DB) (who : option N) (u : URL)
    (request : HttpRequest.t) :
  let d' := serve d (who, u, request) in
  (∀ k c, Cat_objects d' !! k = Some c → Cat_objects d !! k = None →
          get_user who d = Some (Cat.user c))
  ∧ (∀ k f, Feeding_objects d' !! k = Some f → Feeding_objects d !! k = None →
            ∃ c, Cat_objects d !! Feeding.cat f = Some c
                 ∧ get_user who d = Some (Cat.user c)).
Proof.
  unfold serve.
  destruct (get_user who d) as [user|] eqn:Hwho; destruct u; unfold_views;
    cbn [session db]; cbv zeta; try (split; intros; congruence).
  all: match_cases;
       cbn [snd db Cat_objects Feeding_objects set_Cat_objects
         set_User_objects set_Toy_objects set_Feeding_objects Feeding_save Cat_delete];
       try (split; intros; congruence).
  - split; [|intros; congruence]. intros k c. rewrite lookup_insert.
    case_decide; [|congruence]. by intros [= <-].
  - split; [|intros; congruence]. intros k c. rewrite lookup_insert.
    case_decide; [|congruence]. subst. congruence.
  - split.
    + intros k c [_ Hk]%lookup_delete_Some. congruence.
    + intros k f [Hk _]%map_lookup_filter_Some. congruence.
  - split; [intros; congruence|]. intros k f. rewrite lookup_insert.
    case_decide; [|congruence]. intros [= <-] _. simpl.
    match goal with Hg : Cat_get _ _ _ = Some ?c |- _ =>
      apply Cat_get_Some in Hg as [Hg Hu]; exists c; by rewrite Hu end.
Qed.

End requester.

Section urls.

Lemma string_app_inj_r (s1 s2 t : string) : s1 +:+ t = s2 +:+ t → s1 = s2.
Proof.
  assert (∀ s t, String.length (s +:+ t) = (String.length s + String.length t)%nat) as Hlen.
  { intros s t'. induction s as [|c s IH]; simpl; [done|]. by rewrite IH. }
  revert s2. induction s1 as [|c1 s1 IH]; intros [|c2 s2] Heq; simpl in *.
  - done.
  - apply (f_equal String.length) in Heq. simpl in Heq. rewrite !Hlen in Heq.
    simpl in Heq. lia.
  - apply (f_equal String.length) in Heq. simpl in Heq. rewrite !Hlen in Heq.
    simpl in Heq. lia.
  - injection Heq as -> Heq. f_equal. by apply IH.
Qed.

(** X21.  The page of an object names it: two cats with the same
    absolute URL are the same cat, two toys with the same absolute URL
    are the same toy, and no cat shares its URL with a toy. *)
Theorem absolute_urls_name_the_object (a b : N) :
  (Cat.get_absolute_url a = Cat.get_absolute_url b → a = b)
  ∧ (Toy.get_absolute_url a = Toy.get_absolute_url b → a = b)
  ∧ Cat.get_absolute_url a ≠ Toy.get_absolute_url b.
Proof.
  unfold Cat.get_absolute_url, Toy.get_absolute_url, reverse. split_and!.
  - intros Heq%(inj (String.app "/cats/"))%string_app_inj_r. by apply (inj pretty).
  - intros Heq%(inj (String.app "/toys/"))%string_app_inj_r. by apply (inj pretty).
  - simpl. intros [=].
Qed.

End urls.

(** * The further properties on the example database *)

Section more_examples.
#[local] Existing Instance Example.django.

Example db0_is_served : Example.db0 = serve_all empty_db Scenario.requests.
Proof. reflexivity. Qed.

Lemma add_feeding_valid_saves_witness :
  Cat_objects Example.db0 !! 1%N = Some Example.whiskers
  ∧ Cat.user Example.whiskers = Example.ann
  ∧ DateField_clean
      (HttpRequest.POST (Example.post {[ "date" := "2024-05-05"; "meal" := "L" ]}) !! "date")
    = Valid (mkdate 2024 5 5)
  ∧ ChoiceField_clean MEALS
      (HttpRequest.POST (Example.post {[ "date" := "2024-05-05"; "meal" := "L" ]}) !! "meal")
    = Valid "L"
  ∧ add_feeding 1 (Example.post {[ "date" := "2024-05-05"; "meal" := "L" ]})
      (mkEnv Example.db0 (Some Example.ann))
    = (Response (redirect (reverse (url_cat_detail 1))),
       mkEnv (Feeding_save (Feeding.mk (mkdate 2024 5 5) "L" 1) Example.db0)
         (Some Example.ann)).
Proof.
  assert (Cat_objects Example.db0 !! 1%N = Some Example.whiskers) as Hc
    by (vm_compute; reflexivity).
  assert (DateField_clean
            (HttpRequest.POST (Example.post {[ "date" := "2024-05-05"; "meal" := "L" ]})
               !! "date") = Valid (mkdate 2024 5 5)) as Hd by (vm_compute; reflexivity).
  assert (ChoiceField_clean MEALS
            (HttpRequest.POST (Example.post {[ "date" := "2024-05-05"; "meal" := "L" ]})
               !! "meal") = Valid "L") as Hm by (vm_compute; reflexivity).
  split; [exact Hc|]. split; [reflexivity|]. split; [exact Hd|]. split; [exact Hm|].
  exact (proj1 (add_feeding_valid_saves Example.ann 1 Example.whiskers
                  (Example.post {[ "date" := "2024-05-05"; "meal" := "L" ]})
                  Example.db0 (mkdate 2024 5 5) "L" Hc eq_refl Hd Hm)).
Defined.

Lemma get_changes_nothing_witness :
  HttpRequest.method Example.get = GET
  ∧ HttpRequest.POST Example.get = ∅
  ∧ (urlpatterns (url_add_feeding 1) Example.get (mkEnv Example.db0 (Some Example.ann))).2
    = mkEnv Example.db0 (Some Example.ann).
Proof.
  split; [reflexivity|]. split; [reflexivity|].
  exact (get_changes_nothing (url_add_feeding 1) Example.get
           (mkEnv Example.db0 (Some Example.ann)) eq_refl eq_refl).
Defined.

Lemma session_kept_witness :
  url_cat_delete 1 ≠ url_home
  ∧ url_cat_delete 1 ≠ url_signup
  ∧ session (urlpatterns (url_cat_delete 1) (Example.post ∅)
               (mkEnv Example.db0 (Some Example.bob))).2
    = session (mkEnv Example.db0 (Some Example.bob)).
Proof.
  assert (url_cat_delete 1 ≠ url_home) as Hh by discriminate.
  assert (url_cat_delete 1 ≠ url_signup) as Hs by discriminate.
  split; [exact Hh|]. split; [exact Hs|].
  exact (session_kept (url_cat_delete 1) (Example.post ∅)
           (mkEnv Example.db0 (Some Example.bob)) Hh Hs).
Defined.

Lemma CatCreate_then_detail_witness :
  cleaned_data (CatCreate_form (Some Scenario.felix))
  = Some ("Felix", "Alley", "black and white", 4%Z)
  ∧ Example.ann ≠ Example.bob
  ∧ (cat_detail (Cat_seq Example.db0) Example.get
       (mkEnv (db (CatCreate (HttpRequest.mk "/" POST Scenario.felix)
                     (mkEnv Example.db0 (Some Example.bob))).2)
          (Some Example.ann))).1
    = Raise DoesNotExist.
Proof.
  assert (cleaned_data (CatCreate_form (Some Scenario.felix))
          = Some ("Felix", "Alley", "black and white", 4%Z)) as Hcd
    by (vm_compute; reflexivity).
  assert (Example.ann ≠ Example.bob) as Hne by discriminate.
  split; [exact Hcd|]. split; [exact Hne|].
  pose proof (CatCreate_then_detail Example.bob Example.ann Example.db0 "/" Scenario.felix
                Example.get "Felix" "Alley" "black and white" 4 Hcd)
    as (_ & _ & _ & _ & Hother).
  exact (proj1 (Hother Hne)).
Defined.

Lemma CatDelete_frame_witness :
  Cat_objects Example.db0 !! 1%N = Some Example.whiskers
  ∧ Cat_objects
      (db (CatDelete 1 (HttpRequest.mk "/" POST ∅)
             (mkEnv Example.db0 (Some Example.bob))).2) !! 2%N
    = Cat_objects Example.db0 !! 2%N
  ∧ feedings_of 2
      (db (CatDelete 1 (HttpRequest.mk "/" POST ∅)
             (mkEnv Example.db0 (Some Example.bob))).2)
    = feedings_of 2 Example.db0.
Proof.
  assert (Cat_objects Example.db0 !! 1%N = Some Example.whiskers) as Hc
    by (vm_compute; reflexivity).
  split; [exact Hc|].
  pose proof (CatDelete_frame Example.bob 1 Example.whiskers Example.db0 "/" ∅ Hc)
    as (Hother & _).
  assert (2%N ≠ 1%N) as Hne by discriminate.
  exact (Hother 2%N Hne).
Defined.

Lemma age_is_required_witness :
  ((∅ : QueryDict) !! "age" = None ∨ (∅ : QueryDict) !! "age" = Some "")
  ∧ (CatCreate (HttpRequest.mk "/" POST ∅) (mkEnv Example.db0 (Some Example.ann))).2
    = mkEnv Example.db0 (Some Example.ann)
  ∧ ("age", "required") ∈ errors (CatCreate_form (Some ∅)).
Proof.
  assert ((∅ : QueryDict) !! "age" = None ∨ (∅ : QueryDict) !! "age" = Some "") as Hage
    by (left; reflexivity).
  split; [exact Hage|].
  pose proof (age_is_required Example.ann 1 Example.whiskers Example.db0 "/" ∅ Hage)
    as (Hsame & Herr & _).
  split; [exact Hsame | exact Herr].
Defined.

Lemma ToyCreate_then_detail_witness :
  CharField_clean (Some 50%nat)
    (({[ "name" := "Mouse"; "color" := "grey" ]} : QueryDict) !! "name") = Valid "Mouse"
  ∧ CharField_clean (Some 20%nat)
      (({[ "name" := "Mouse"; "color" := "grey" ]} : QueryDict) !! "color") = Valid "grey"
  ∧ (toy_detail (Toy_seq Example.db0) Example.get
       (mkEnv (db (ToyCreate (HttpRequest.mk "/" POST {[ "name" := "Mouse"; "color" := "grey" ]})
                     (mkEnv Example.db0 (Some Example.ann))).2)
          (Some Example.bob))).1
    = Response (render "main_app/toy_detail.html"
        [("toy", VToy (Toy_seq Example.db0) (Toy.mk "Mouse" "grey"))]).
Proof.
  assert (CharField_clean (Some 50%nat)
            (({[ "name" := "Mouse"; "color" := "grey" ]} : QueryDict) !! "name")
          = Valid "Mouse") as Hn by (vm_compute; reflexivity).
  assert (CharField_clean (Some 20%nat)
            (({[ "name" := "Mouse"; "color" := "grey" ]} : QueryDict) !! "color")
          = Valid "grey") as Hcol by (vm_compute; reflexivity).
  split; [exact Hn|]. split; [exact Hcol|].
  exact (proj2 (proj2 (ToyCreate_then_detail Example.ann Example.bob Example.db0 "/"
                         {[ "name" := "Mouse"; "color" := "grey" ]} Example.get
                         "Mouse" "grey" Hn Hcol))).
Defined.

Lemma ToyUpdate_ToyDelete_post_witness :
  Toy_objects Scenario.db1 !! 1%N = Some Scenario.ball
  ∧ CharField_clean (Some 50%nat)
      (({[ "name" := "Yarn"; "color" := "blue" ]} : QueryDict) !! "name") = Valid "Yarn"
  ∧ CharField_clean (Some 20%nat)
      (({[ "name" := "Yarn"; "color" := "blue" ]} : QueryDict) !! "color") = Valid "blue"
  ∧ Toy_objects
      (db (ToyDelete 1 (HttpRequest.mk "/" POST {[ "name" := "Yarn"; "color" := "blue" ]})
             (mkEnv Scenario.db1 (Some Example.bob))).2) !! 1%N = None
  ∧ Toy_objects
      (db (ToyUpdate 1 (HttpRequest.mk "/" POST {[ "name" := "Yarn"; "color" := "blue" ]})
             (mkEnv Scenario.db1 (Some Example.bob))).2) !! 1%N
    = Some (Toy.mk "Yarn" "blue").
Proof.
  assert (Toy_objects Scenario.db1 !! 1%N = Some Scenario.ball) as Hx
    by (vm_compute; reflexivity).
  assert (CharField_clean (Some 50%nat)
            (({[ "name" := "Yarn"; "color" := "blue" ]} : QueryDict) !! "name")
          = Valid "Yarn") as Hn by (vm_compute; reflexivity).
  assert (CharField_clean (Some 20%nat)
            (({[ "name" := "Yarn"; "color" := "blue" ]} : QueryDict) !! "color")
          = Valid "blue") as Hcol by (vm_compute; reflexivity).
  split; [exact Hx|]. split; [exact Hn|]. split; [exact Hcol|].
  pose proof (ToyUpdate_ToyDelete_post Example.bob 1 Scenario.ball Scenario.db1 "/"
                {[ "name" := "Yarn"; "color" := "blue" ]} "Yarn" "blue" Hx Hn Hcol)
    as (_ & Hgone & _ & _ & _ & _ & _ & Hnew & _).
  split; [exact Hgone | exact Hnew].
Defined.

Lemma cat_owner_and_name_for_life_witness :
  Cat_objects (serve_all empty_db Scenario.requests) !! 1%N = Some Example.whiskers
  ∧ Cat_objects (serve_all empty_db (Scenario.requests ++ [Scenario.bob_updates_whiskers]))
      !! 1%N = Some (Cat.mk "Whiskers" "Persian" "fluffy" 3 Example.ann)
  ∧ Cat.user (Cat.mk "Whiskers" "Persian" "fluffy" 3 Example.ann) = Cat.user Example.whiskers
  ∧ Cat.name (Cat.mk "Whiskers" "Persian" "fluffy" 3 Example.ann) = Cat.name Example.whiskers.
Proof.
  assert (Cat_objects (serve_all empty_db Scenario.requests) !! 1%N = Some Example.whiskers)
    as H1 by (vm_compute; reflexivity).
  assert (Cat_objects
            (serve_all empty_db (Scenario.requests ++ [Scenario.bob_updates_whiskers]))
            !! 1%N = Some (Cat.mk "Whiskers" "Persian" "fluffy" 3 Example.ann))
    as H2 by (vm_compute; reflexivity).
  split; [exact H1|]. split; [exact H2|].
  exact (cat_owner_and_name_for_life Scenario.requests [Scenario.bob_updates_whiskers] 1
           Example.whiskers (Cat.mk "Whiskers" "Persian" "fluffy" 3 Example.ann) H1 H2).
Defined.

Lemma feeding_rows_never_change_witness :
  Feeding_objects (serve_all empty_db Scenario.requests) !! 1%N
  = Some (Feeding.mk (mkdate 2024 1 1) "B" 1)
  ∧ (Feeding_objects (serve (serve_all empty_db Scenario.requests)
                        Scenario.bob_deletes_whiskers) !! 1%N
     = Some (Feeding.mk (mkdate 2024 1 1) "B" 1)
     ∨ (Feeding_objects (serve (serve_all empty_db Scenario.requests)
                           Scenario.bob_deletes_whiskers) !! 1%N = None
        ∧ Cat_objects (serve (serve_all empty_db Scenario.requests)
                         Scenario.bob_deletes_whiskers)
            !! Feeding.cat (Feeding.mk (mkdate 2024 1 1) "B" 1) = None)).
Proof.
  assert (Feeding_objects (serve_all empty_db Scenario.requests) !! 1%N
          = Some (Feeding.mk (mkdate 2024 1 1) "B" 1)) as Hf by (vm_compute; reflexivity).
  split; [exact Hf|].
  exact (feeding_rows_never_change Scenario.requests Scenario.bob_deletes_whiskers 1
           (Feeding.mk (mkdate 2024 1 1) "B" 1) Hf).
Defined.

Lemma stored_meals_are_choices_witness :
  Feeding_objects (serve_all empty_db Scenario.requests) !! 2%N
  = Some (Feeding.mk (mkdate 2024 3 5) "D" 1)
  ∧ Feeding.meal (Feeding.mk (mkdate 2024 3 5) "D" 1) ∈ ["B"; "L"; "D"]
  ∧ Feeding.get_meal_display (Feeding.mk (mkdate 2024 3 5) "D" 1)
    ∈ ["Breakfast"; "Lunch"; "Dinner"].
Proof.
  assert (Feeding_objects (serve_all empty_db Scenario.requests) !! 2%N
          = Some (Feeding.mk (mkdate 2024 3 5) "D" 1)) as Hf by (vm_compute; reflexivity).
  split; [exact Hf|].
  exact (stored_meals_are_choices Scenario.requests 2 (Feeding.mk (mkdate 2024 3 5) "D" 1) Hf).
Defined.

Lemma every_cat_has_an_owner_witness :
  Cat_objects (serve_all empty_db Scenario.requests) !! 1%N = Some Example.whiskers
  ∧ is_Some (User_objects (serve_all empty_db Scenario.requests) !! Cat.user Example.whiskers).
Proof.
  assert (Cat_objects (serve_all empty_db Scenario.requests) !! 1%N = Some Example.whiskers)
    as Hc by (vm_compute; reflexivity).
  split; [exact Hc|].
  exact (every_cat_has_an_owner Scenario.requests 1 Example.whiskers Hc).
Defined.

Lemma signup_valid_creates_user_witness :
  HttpRequest.method
    (Example.post {[ "username" := "carl"; "password1" := "open sesame";
                     "password2" := "open sesame" ]}) = POST
  ∧ cleaned_data
      (UserCreationForm (serve_all empty_db Scenario.requests)
         (Some (HttpRequest.POST
            (Example.post {[ "username" := "carl"; "password1" := "open sesame";
                             "password2" := "open sesame" ]}))))
    = Some ("carl", "open sesame")
  ∧ session
      (signup (Example.post {[ "username" := "carl"; "password1" := "open sesame";
                               "password2" := "open sesame" ]})
         (mkEnv (serve_all empty_db Scenario.requests) None)).2
    = Some (User_seq (serve_all empty_db Scenario.requests))
  ∧ ∀ k u, User_objects (serve_all empty_db Scenario.requests) !! k = Some u →
           User.username u ≠ "carl" ∧ iexact (User.username u) "carl" = false.
Proof.
  assert (cleaned_data
            (UserCreationForm (serve_all empty_db Scenario.requests)
               (Some (HttpRequest.POST
                  (Example.post {[ "username" := "carl"; "password1" := "open sesame";
                                   "password2" := "open sesame" ]}))))
          = Some ("carl", "open sesame")) as Hcd by (vm_compute; reflexivity).
  split; [reflexivity|]. split; [exact Hcd|].
  pose proof (signup_valid_creates_user Scenario.requests None
                (Example.post {[ "username" := "carl"; "password1" := "open sesame";
                                 "password2" := "open sesame" ]})
                "carl" "open sesame" eq_refl Hcd) as (_ & Hsession & _ & _ & _ & Hfree & _).
  split; [exact Hsession | exact Hfree].
Defined.

(** A name that differs from the name of a user only in case is taken. *)
Example signup_Ann_is_rejected :
  errors (UserCreationForm Example.db0
            (Some {[ "username" := "Ann"; "password1" := "open sesame";
                     "password2" := "open sesame" ]}))
  = [("username", "unique")].
Proof. vm_compute. reflexivity. Qed.

(** A name with a null character in it is not accepted. *)
Example null_character_is_rejected :
  CharField_clean (Some 100%nat) (Some (String "a" (String zero "b")))
  = ValidationError "null_characters_not_allowed".
Proof. vm_compute. reflexivity. Qed.

(** The example framework takes a negative age and a day of the
    calendar, and nothing beyond 64 bits or beyond the end of a month. *)
Example example_conversions :
  IntegerField_to_python "-3" = Some (-3)%Z
  ∧ IntegerField_to_python "9223372036854775808" = None
  ∧ DateField_to_python "2024-02-29" = Some (mkdate 2024 2 29)
  ∧ DateField_to_python "2024-02-30" = None.
Proof. vm_compute. done. Qed.

(** The [next] of a request with a query string. *)
Example next_is_quoted :
  redirect_to_login (HttpRequest.mk "/cats/?a=b" GET ∅)
  = redirect "/accounts/login/?next=/cats/%3Fa%3Db".
Proof. vm_compute. reflexivity. Qed.

End more_examples.
